(** * Price scraper: store detection, price-text normalisation, parsers,
      fetch strategies and the fallback orchestrator of [scraper.py].

    Python [str] values are modelled as [string] (sequences of one-byte
    characters); the model covers ASCII text: [\d], [str.lower] and
    [str.strip] are given their ASCII meaning, other bytes are left alone.
    Python [float] values are IEEE-754 binary64 numbers, modelled with the
    standard library's [spec_float] at precision 53 and maximal exponent
    1024. *)

From Stdlib Require Import ZArith List Bool Ascii String Lia.
From Stdlib Require Import Floats.
Import ListNotations.

Open Scope string_scope.
Open Scope Z_scope.

(* ================================================================== *)
(** * Python string primitives *)
(* ================================================================== *)

Module PyStr.

Definition code (c : ascii) : N := N_of_ascii c.

(** [\d] on ASCII text. *)
Definition is_digit (c : ascii) : bool :=
  ((48 <=? code c) && (code c <=? 57))%N.

(** Characters removed by [str.strip()]: tab, LF, VT, FF, CR, the four
    separators 0x1c-0x1f and the space. *)
Definition is_space (c : ascii) : bool :=
  (((9 <=? code c) && (code c <=? 13)) ||
   ((28 <=? code c) && (code c <=? 32)))%N.

Definition lower_char (c : ascii) : ascii :=
  if ((65 <=? code c) && (code c <=? 90))%N
  then ascii_of_N (code c + 32) else c.

(** [s.lower()] *)
Fixpoint lower (s : string) : string :=
  match s with
  | EmptyString => EmptyString
  | String c s' => String (lower_char c) (lower s')
  end.

Fixpoint startswith (p s : string) : bool :=
  match p, s with
  | EmptyString, _ => true
  | String a p', String b s' => Ascii.eqb a b && startswith p' s'
  | String _ _, EmptyString => false
  end.

(** [needle in hay] *)
Fixpoint contains (needle hay : string) : bool :=
  startswith needle hay ||
  match hay with
  | EmptyString => false
  | String _ hay' => contains needle hay'
  end.

Fixpoint filter (f : ascii -> bool) (s : string) : string :=
  match s with
  | EmptyString => EmptyString
  | String c s' => if f c then String c (filter f s') else filter f s'
  end.

Fixpoint map (f : ascii -> ascii) (s : string) : string :=
  match s with
  | EmptyString => EmptyString
  | String c s' => String (f c) (map f s')
  end.

Fixpoint lstrip (s : string) : string :=
  match s with
  | EmptyString => EmptyString
  | String c s' => if is_space c then lstrip s' else s
  end.

(** Drops trailing white space: a character is kept when it is not a
    space or when something is kept after it. *)
Fixpoint rstrip (s : string) : string :=
  match s with
  | EmptyString => EmptyString
  | String c s' =>
      match rstrip s' with
      | EmptyString => if is_space c then EmptyString else String c EmptyString
      | r => String c r
      end
  end.

(** [s.strip()] *)
Definition strip (s : string) : string := rstrip (lstrip s).

(** [c in s] for a one-character [c]. *)
Fixpoint has_char (c : ascii) (s : string) : bool :=
  match s with
  | EmptyString => false
  | String a s' => Ascii.eqb a c || has_char c s'
  end.

(** [s.count(c)] *)
Fixpoint count (c : ascii) (s : string) : Z :=
  match s with
  | EmptyString => 0
  | String a s' => (if Ascii.eqb a c then 1 else 0) + count c s'
  end.

Fixpoint rfind_from (c : ascii) (s : string) (i last : Z) : Z :=
  match s with
  | EmptyString => last
  | String a s' => rfind_from c s' (i + 1) (if Ascii.eqb a c then i else last)
  end.

(** [s.rfind(c)]: the highest index of [c], or -1. *)
Definition rfind (c : ascii) (s : string) : Z := rfind_from c s 0 (-1).

(** [s.replace(a, b)] for one-character [a] and [b]. *)
Definition replace (a b : ascii) (s : string) : string :=
  map (fun c => if Ascii.eqb c a then b else c) s.

(** [s.replace(a, '')] *)
Definition remove (a : ascii) (s : string) : string :=
  filter (fun c => negb (Ascii.eqb c a)) s.

(** [s.replace(a, '', n)]: drops the first [n] occurrences of [a]; a
    negative [n] drops them all, as in Python. *)
Fixpoint remove_n (a : ascii) (s : string) (n : Z) : string :=
  match s with
  | EmptyString => EmptyString
  | String c s' =>
      if Ascii.eqb c a && negb (n =? 0)
      then remove_n a s' (n - 1)
      else String c (remove_n a s' n)
  end.

(** Truth value of a string: non-empty. *)
Definition truthy (s : string) : bool :=
  match s with EmptyString => false | _ => true end.

End PyStr.

(* ================================================================== *)
(** * Python floats *)
(* ================================================================== *)

Module PyFloat.

Definition float := spec_float.

Definition prec : Z := 53.
Definition emax : Z := 1024.

(** The binary64 number nearest to [m / 10^k] (ties to even), for a
    natural number [m]. *)
Definition of_decimal (m : Z) (k : nat) : float :=
  match m with
  | Zpos p =>
      SFdiv prec emax (S754_finite false p 0)
                      (S754_finite false (Z.to_pos (10 ^ Z.of_nat k)) 0)
  | _ => S754_zero false
  end.

Definition digit_val (c : ascii) : Z := Z.of_N (PyStr.code c) - 48.

Fixpoint digits_value (s : string) (acc : Z) : Z :=
  match s with
  | EmptyString => acc
  | String c s' => digits_value s' (10 * acc + digit_val c)
  end.

Fixpoint all_digits (s : string) : bool :=
  match s with
  | EmptyString => true
  | String c s' => PyStr.is_digit c && all_digits s'
  end.

(** Splits at the first period: the text before it and, when there is
    one, the text after it. *)
Fixpoint split_dot (s : string) : string * option string :=
  match s with
  | EmptyString => (EmptyString, None)
  | String c s' =>
      if Ascii.eqb c "." then (EmptyString, Some s')
      else let '(a, b) := split_dot s' in (String c a, b)
  end.

(** [float(s)] for the strings [parse_price_text] passes to it, which
    hold only digits and periods: [Some] of the nearest binary64 number
    for [digits], [digits.], [.digits] and [digits.digits], and [None]
    where Python raises [ValueError]. *)
Definition of_string (s : string) : option float :=
  match split_dot s with
  | (ip, None) =>
      if PyStr.truthy ip && all_digits ip
      then Some (of_decimal (digits_value ip 0) 0)
      else None
  | (ip, Some fp) =>
      if all_digits ip && all_digits fp && PyStr.truthy (ip ++ fp)
      then Some (of_decimal (digits_value (ip ++ fp) 0) (String.length fp))
      else None
  end.

(** [bool(x)]: a float is true unless it is a zero. *)
Definition truthy (x : float) : bool :=
  match x with S754_zero _ => false | _ => true end.

Definition zero : float := S754_zero false.

(** [x > y] *)
Definition gtb (x y : float) : bool := SFltb y x.

(** Truth value of an [Optional[float]]. *)
Definition opt_truthy (o : option float) : bool :=
  match o with Some x => truthy x | None => false end.

End PyFloat.

Abbreviation float := PyFloat.float.

(* ================================================================== *)
(** * Store detection and price-text normalisation *)
(* ================================================================== *)

Definition detect_store (url : string) : string :=
  let url_lower := PyStr.lower url in
  if PyStr.contains "mercadolibre" url_lower || PyStr.contains "meli" url_lower
  then "mercadolibre"
  else if PyStr.contains "amazon" url_lower then "amazon"
  else if PyStr.contains "hardgamers" url_lower then "hardgamers"
  else if PyStr.contains "garbarino" url_lower then "garbarino"
  else if PyStr.contains "fravega" url_lower then "fravega"
  else if PyStr.contains "musimundo" url_lower then "musimundo"
  else if PyStr.contains "fullh4rd" url_lower then "fullh4rd"
  else "generic".

(** [re.sub(r'[^\d.,]', '', s)] *)
Definition keep_price_chars (s : string) : string :=
  PyStr.filter (fun c => PyStr.is_digit c || Ascii.eqb c "." || Ascii.eqb c ",") s.

(** The separator handling of [parse_price_text], on the cleaned text. *)
Definition normalize_separators (cleaned : string) : string :=
  if PyStr.has_char "," cleaned && PyStr.has_char "." cleaned then
    if PyStr.rfind "," cleaned >? PyStr.rfind "." cleaned
    then PyStr.replace "," "." (PyStr.remove "." cleaned)
    else PyStr.remove "," cleaned
  else if PyStr.has_char "," cleaned then
    PyStr.replace "," "." cleaned
  else if PyStr.count "." cleaned >? 1 then
    PyStr.remove_n "." cleaned (PyStr.count "." cleaned - 1)
  else cleaned.

Definition parse_price_text (text : string) : option float :=
  if negb (PyStr.truthy text) then None
  else
    let cleaned := keep_price_chars (PyStr.strip text) in
    PyFloat.of_string (normalize_separators cleaned).


(* ================================================================== *)
(** * Parsed documents *)
(* ================================================================== *)

(** A value given to a BeautifulSoup filter: a plain string or a compiled
    regular expression ([re.compile(pattern)], with [re.I] when
    [ignore_case]). *)
Inductive matcher : Type :=
| Lit (s : string)
| Re (pattern : string) (ignore_case : bool).

(** The part of BeautifulSoup the parsers use. [find_all soup name attrs]
    is [soup.find_all(name, attrs)], in document order, [name = None]
    standing for any tag; [find_string soup m] is [soup.find(string=m)];
    [tag_get t k] is the value of attribute [k], when present;
    [get_text t] is [t.get_text(strip=True)]. The constructor may raise
    (no such tree builder), which is [None]. *)
Class BeautifulSoupAPI (Soup Tag : Type) : Type := {
  BeautifulSoup : string -> option Soup;
  find_all : Soup -> option string -> list (string * matcher) -> list Tag;
  find_string : Soup -> matcher -> option string;
  tag_name : Tag -> string;
  tag_get : Tag -> string -> option string;
  get_text : Tag -> string
}.

(** The dictionary every parser returns, with its four fixed keys. *)
Record Extraction : Type := {
  d_price : option float;
  d_currency : string;
  d_in_stock : bool;
  d_name : string
}.

Definition set_price (r : Extraction) (p : option float) : Extraction :=
  {| d_price := p; d_currency := d_currency r;
     d_in_stock := d_in_stock r; d_name := d_name r |}.

Definition set_currency (r : Extraction) (c : string) : Extraction :=
  {| d_price := d_price r; d_currency := c;
     d_in_stock := d_in_stock r; d_name := d_name r |}.

Definition set_in_stock (r : Extraction) (b : bool) : Extraction :=
  {| d_price := d_price r; d_currency := d_currency r;
     d_in_stock := b; d_name := d_name r |}.

Definition set_name (r : Extraction) (n : string) : Extraction :=
  {| d_price := d_price r; d_currency := d_currency r;
     d_in_stock := d_in_stock r; d_name := n |}.

(** [a or b] on optional values whose present values are all true. *)
Definition or_else {A : Type} (a b : option A) : option A :=
  match a with Some _ => a | None => b end.

(** Truth value of an optional string (a found [NavigableString]). *)
Definition opt_str_truthy (o : option string) : bool :=
  match o with Some s => PyStr.truthy s | None => false end.

(** [d.get(key, default)] on a dictionary kept as an association list. *)
Fixpoint dict_get {V : Type} (d : list (string * V)) (key : string) (default : V) : V :=
  match d with
  | [] => default
  | (k, v) :: d' => if String.eqb k key then v else dict_get d' key default
  end.

Section Parsers.

Context {Soup Tag : Type} {BS : BeautifulSoupAPI Soup Tag}.

(** [soup.find(name, attrs)]: the first result of [find_all]. *)
Definition find (soup : Soup) (name : option string)
           (attrs : list (string * matcher)) : option Tag :=
  hd_error (find_all soup name attrs).

(** [tag.get(key, default)] *)
Definition get (tag : Tag) (key default : string) : string :=
  match tag_get tag key with Some v => v | None => default end.

Definition parse_mercadolibre (soup : Soup) (url : string) : Extraction :=
  let result := {| d_price := None; d_currency := "ARS";
                   d_in_stock := true; d_name := "" |} in
  let name_tag :=
    or_else (find soup (Some "h1") [("class", Re "ui-pdp-title" false)])
            (find soup (Some "h1") [("class", Re "item-title" false)]) in
  let result :=
    match name_tag with
    | Some t => set_name result (get_text t)
    | None => result
    end in
  let price_tag :=
    or_else (find soup (Some "span")
                  [("class", Re "andes-money-amount__fraction" false)])
            (find soup (Some "meta") [("itemprop", Lit "price")]) in
  let result :=
    match price_tag with
    | Some t =>
        if String.eqb (tag_name t) "meta"
        then set_price result (parse_price_text (get t "content" ""))
        else
          let price_text := get_text t in
          let cents_tag :=
            find soup (Some "span")
                 [("class", Re "andes-money-amount__cents" false)] in
          let price_text :=
            match cents_tag with
            | Some c => price_text ++ "." ++ get_text c
            | None => price_text
            end in
          set_price result (parse_price_text price_text)
    | None => result
    end in
  let no_stock :=
    find_string soup (Re "sin stock|agotado|no disponible" true) in
  if opt_str_truthy no_stock then set_in_stock result false else result.

Definition price_selectors : list (string * list (string * matcher)) :=
  [ ("span", [("id", Lit "priceblock_ourprice")]);
    ("span", [("id", Lit "priceblock_dealprice")]);
    ("span", [("class", Re "a-price-whole" false)]);
    ("span", [("id", Lit "price_inside_buybox")]) ].

(** The [for tag, attrs in price_selectors] loop of [parse_amazon],
    with its [break]. *)
Fixpoint amazon_price_loop (soup : Soup)
         (selectors : list (string * list (string * matcher)))
         (result : Extraction) : Extraction :=
  match selectors with
  | [] => result
  | (tag, attrs) :: rest =>
      match find soup (Some tag) attrs with
      | Some price_tag =>
          let price_text := get_text price_tag in
          let frac_tag :=
            find soup (Some "span") [("class", Lit "a-price-fraction")] in
          let price_text :=
            match frac_tag with
            | Some f =>
                if negb (PyStr.contains "." price_text)
                then price_text ++ "." ++ get_text f
                else price_text
            | None => price_text
            end in
          let result := set_price result (parse_price_text price_text) in
          if PyFloat.opt_truthy (d_price result) then result
          else amazon_price_loop soup rest result
      | None => amazon_price_loop soup rest result
      end
  end.

Definition parse_amazon (soup : Soup) (url : string) : Extraction :=
  let result := {| d_price := None; d_currency := "USD";
                   d_in_stock := true; d_name := "" |} in
  let name_tag := find soup (Some "span") [("id", Lit "productTitle")] in
  let result :=
    match name_tag with
    | Some t => set_name result (get_text t)
    | None => result
    end in
  let result := amazon_price_loop soup price_selectors result in
  let unavailable : bool :=
    match find soup None [("id", Lit "outOfStock")] with
    | Some _ => true
    | None =>
        opt_str_truthy
          (find_string soup (Re "unavailable|out of stock" true))
    end in
  let result := if unavailable then set_in_stock result false else result in
  let currency_tag :=
    find soup (Some "span") [("class", Lit "a-price-symbol")] in
  match currency_tag with
  | Some t =>
      let symbol := get_text t in
      if PyStr.contains "$" symbol then set_currency result "USD"
      else if PyStr.contains "€" symbol then set_currency result "EUR"
      else result
  | None => result
  end.

Definition parse_hardgamers (soup : Soup) (url : string) : Extraction :=
  let result := {| d_price := None; d_currency := "ARS";
                   d_in_stock := true; d_name := "" |} in
  let name_tag :=
    or_else (find soup (Some "h1")
                  [("class", Re "product.*title|title.*product" true)])
            (find soup (Some "h1") []) in
  let result :=
    match name_tag with
    | Some t => set_name result (get_text t)
    | None => result
    end in
  let price_tag :=
    or_else (find soup (Some "span") [("class", Re "price|precio" true)])
            (find soup (Some "p") [("class", Re "price|precio" true)]) in
  let result :=
    match price_tag with
    | Some t => set_price result (parse_price_text (get_text t))
    | None => result
    end in
  let no_stock := find_string soup (Re "sin stock|agotado" true) in
  if opt_str_truthy no_stock then set_in_stock result false else result.

(** The [for tag in soup.find_all(class_=...)] loop of [parse_generic],
    with its [break]. *)
Fixpoint generic_price_loop (tags : list Tag) (result : Extraction)
  : Extraction :=
  match tags with
  | [] => result
  | tag :: rest =>
      let text := get_text tag in
      let price := parse_price_text text in
      match price with
      | Some p =>
          if PyFloat.truthy p && PyFloat.gtb p PyFloat.zero
          then set_price result price
          else generic_price_loop rest result
      | None => generic_price_loop rest result
      end
  end.

Definition parse_generic (soup : Soup) (url : string) : Extraction :=
  let result := {| d_price := None; d_currency := "ARS";
                   d_in_stock := true; d_name := "" |} in
  let og_title := find soup (Some "meta") [("property", Lit "og:title")] in
  let result :=
    match og_title with
    | Some t => set_name result (get t "content" "")
    | None =>
        match find soup (Some "h1") [] with
        | Some h1 => set_name result (get_text h1)
        | None => result
        end
    end in
  let og_price :=
    find soup (Some "meta") [("property", Lit "product:price:amount")] in
  match og_price with
  | Some t => set_price result (parse_price_text (get t "content" ""))
  | None =>
      generic_price_loop
        (find_all soup None [("class", Re "price|precio" true)]) result
  end.

Definition PARSERS : list (string * (Soup -> string -> Extraction)) :=
  [ ("mercadolibre", parse_mercadolibre);
    ("amazon", parse_amazon);
    ("hardgamers", parse_hardgamers);
    ("garbarino", parse_generic);
    ("fravega", parse_generic);
    ("musimundo", parse_generic);
    ("fullh4rd", parse_generic);
    ("generic", parse_generic) ].

End Parsers.

(* ================================================================== *)
(** * Effects: the outside world, the event log and exceptions *)
(* ================================================================== *)

(** What [requests.get] does: it raises (connection refused, timeout) or
    returns a response with a status code and a body. *)
Inductive http_reply : Type :=
| ConnectionError
| Response (status_code : Z) (text : string).

(** One run's environment. [TIMEOUT] is the module constant read from the
    environment; [user_agents] lists the successive values of [ua.random];
    the [pw_] fields say which Playwright calls succeed ([false]: the call
    raises) and what [page.content()] returns. *)
Record World : Type := {
  TIMEOUT : Z;
  user_agents : nat -> string;
  requests_get : string -> string -> Z -> http_reply;
  pw_import : bool;
  pw_start : bool;
  pw_launch : bool;
  pw_new_context : string -> bool;
  pw_new_page : bool;
  pw_route : bool;
  pw_goto : string -> Z -> bool;
  pw_wait_for_timeout : Z -> bool;
  pw_content : option string;
  pw_close : bool;
  pw_stop : bool
}.

(** Calls made to the outside world, as a fake backend would record
    them. [EvPlaywrightStart] and [EvPlaywrightStop] are the entry and the
    exit of [async with async_playwright()]. *)
Inductive event : Type :=
| EvHttpGet (url user_agent : string) (timeout : Z)
| EvPlaywrightStart
| EvLaunch
| EvNewContext (user_agent : string)
| EvNewPage
| EvRoute
| EvGoto (url : string) (timeout_ms : Z)
| EvWaitForTimeout (ms : Z)
| EvContent
| EvBrowserClose
| EvPlaywrightStop.

Definition event_eqb (a b : event) : bool :=
  match a, b with
  | EvHttpGet u1 a1 t1, EvHttpGet u2 a2 t2 =>
      String.eqb u1 u2 && String.eqb a1 a2 && (t1 =? t2)
  | EvPlaywrightStart, EvPlaywrightStart => true
  | EvLaunch, EvLaunch => true
  | EvNewContext a1, EvNewContext a2 => String.eqb a1 a2
  | EvNewPage, EvNewPage => true
  | EvRoute, EvRoute => true
  | EvGoto u1 t1, EvGoto u2 t2 => String.eqb u1 u2 && (t1 =? t2)
  | EvWaitForTimeout m1, EvWaitForTimeout m2 => m1 =? m2
  | EvContent, EvContent => true
  | EvBrowserClose, EvBrowserClose => true
  | EvPlaywrightStop, EvPlaywrightStop => true
  | _, _ => false
  end.

(** How many times [e] occurs in a log. *)
Definition occurrences (e : event) (log : list event) : nat :=
  List.length (List.filter (event_eqb e) log).

(** The state threaded through a run: how many user agents were drawn
    and the calls made so far, oldest first. *)
Record State : Type := {
  rng : nat;
  trace : list event
}.

(** The result of a computation: a value, or a raised [Exception]. *)
Inductive outcome (A : Type) : Type :=
| Ok (a : A)
| Raised.
Arguments Ok {A} a.
Arguments Raised {A}.

Definition M (A : Type) : Type := State -> outcome A * State.

Definition ret {A : Type} (a : A) : M A := fun st => (Ok a, st).

Definition bind {A B : Type} (m : M A) (k : A -> M B) : M B :=
  fun st =>
    match m st with
    | (Ok a, st') => k a st'
    | (Raised, st') => (Raised, st')
    end.

Definition raise {A : Type} : M A := fun st => (Raised, st).

(** [try: body except Exception: handler] *)
Definition try_except {A : Type} (body handler : M A) : M A :=
  fun st =>
    match body st with
    | (Ok a, st') => (Ok a, st')
    | (Raised, st') => handler st'
    end.

(** [async with enter as x: body], the manager's exit being [leave]: it
    runs after the body on both paths, and not at all when entering
    raises; an exception of the body is raised again after it. *)
Definition async_with {X A : Type} (enter : M X) (leave : M unit)
           (body : X -> M A) : M A :=
  fun st =>
    match enter st with
    | (Ok x, st1) =>
        match body x st1 with
        | (Ok a, st2) =>
            match leave st2 with
            | (Ok _, st3) => (Ok a, st3)
            | (Raised, st3) => (Raised, st3)
            end
        | (Raised, st2) => (Raised, snd (leave st2))
        end
    | (Raised, st1) => (Raised, st1)
    end.

Definition emit (e : event) : M unit :=
  fun st => (Ok tt, {| rng := rng st; trace := trace st ++ [e] |}).

Declare Scope monad_scope.
Delimit Scope monad_scope with monad.
Notation "x <- m ;; k" := (bind m (fun x => k))
  (at level 61, m at next level, right associativity) : monad_scope.
Notation "m ;; k" := (bind m (fun _ => k))
  (at level 61, right associativity) : monad_scope.

(** A call to the world: logged, then it returns or raises. *)
Definition call (e : event) (succeeds : bool) : M unit :=
  (emit e ;; if succeeds then ret tt else raise)%monad.

Definition of_option {A : Type} (o : option A) : M A :=
  match o with Some a => ret a | None => raise end.

(** [asyncio.run(coro)]: it drives the coroutine to completion on an
    event loop of its own, and raises [RuntimeError], without starting
    the coroutine, when the calling thread already runs an event loop. *)
Definition asyncio_run {A : Type} (in_event_loop : bool) (coro : M A) : M A :=
  if in_event_loop then raise else coro.

(* ================================================================== *)
(** * Fetch strategies and the orchestrator *)
(* ================================================================== *)

(** The pipeline's output. *)
Record ScrapeResult : Type := {
  product_id : Z;
  name : string;
  url : string;
  store : string;
  price : option float;
  currency : string;
  in_stock : bool;
  error : option string
}.

(** The product dictionary handed to [scrape_product]; the key ["store"]
    may be missing or hold [None]. *)
Record Product : Type := {
  p_id : Z;
  p_name : string;
  p_url : string;
  p_store : option string
}.

(** [product.get("store") or detect_store(url)] *)
Definition resolved_store (product : Product) : string :=
  match p_store product with
  | Some s => if PyStr.truthy s then s else detect_store (p_url product)
  | None => detect_store (p_url product)
  end.

Section Strategies.

Context {Soup Tag : Type} {BS : BeautifulSoupAPI Soup Tag}.
Variable w : World.

(** Whether the calling thread already runs an event loop. It does in
    the handlers of [telegram_bot.py] ([cmd_agregar], [cmd_chequear]
    and [scheduled_check] are coroutines of the bot's loop and call
    [scrape_product] directly); it does not in [manage.py]. *)
Variable in_event_loop : bool.

Local Open Scope monad_scope.

(** [ua.random] *)
Definition ua_random : M string :=
  fun st => (Ok (user_agents w (rng st)),
             {| rng := S (rng st); trace := trace st |}).

(** [requests.get(url, headers=headers, timeout=timeout)] *)
Definition http_get (u user_agent : string) (timeout : Z) : M http_reply :=
  emit (EvHttpGet u user_agent timeout) ;;
  match requests_get w u user_agent timeout with
  | ConnectionError => raise
  | r => ret r
  end.

(** [response.raise_for_status()]: raises on the 4xx and 5xx codes. *)
Definition raise_for_status (r : http_reply) : M unit :=
  match r with
  | Response c _ => if (400 <=? c) && (c <? 600) then raise else ret tt
  | ConnectionError => raise
  end.

Definition response_text (r : http_reply) : string :=
  match r with Response _ t => t | ConnectionError => "" end.

Definition scrape_with_bs4 (u s : string) : M (option Extraction) :=
  user_agent <- ua_random ;;
  try_except
    (response <- http_get u user_agent (TIMEOUT w) ;;
     raise_for_status response ;;
     soup <- of_option (BeautifulSoup (response_text response)) ;;
     let parser := dict_get PARSERS s parse_generic in
     let data := parser soup u in
     if PyFloat.opt_truthy (d_price data) then ret (Some data)
     else ret None)
    (ret None).

(** The body of [async with async_playwright() as p]. *)
Definition playwright_session (u : string) : M string :=
  call EvLaunch (pw_launch w) ;;
  user_agent <- ua_random ;;
  call (EvNewContext user_agent) (pw_new_context w user_agent) ;;
  call EvNewPage (pw_new_page w) ;;
  call EvRoute (pw_route w) ;;
  call (EvGoto u (TIMEOUT w * 1000)) (pw_goto w u (TIMEOUT w * 1000)) ;;
  call (EvWaitForTimeout 2000) (pw_wait_for_timeout w 2000) ;;
  emit EvContent ;;
  content <- of_option (pw_content w) ;;
  call EvBrowserClose (pw_close w) ;;
  ret content.

Definition scrape_with_playwright_async (u s : string)
  : M (option Extraction) :=
  try_except
    ((if pw_import w then ret tt else raise) ;;
     content <- async_with (call EvPlaywrightStart (pw_start w))
                           (call EvPlaywrightStop (pw_stop w))
                           (fun _ => playwright_session u) ;;
     soup <- of_option (BeautifulSoup content) ;;
     let parser := dict_get PARSERS s parse_generic in
     let data := parser soup u in
     ret (if PyFloat.opt_truthy (d_price data) then Some data else None))
    (ret None).

(** [return asyncio.run(scrape_with_playwright_async(url, store))]:
    the coroutine catches every exception of its own, the
    [RuntimeError] of [asyncio.run] is raised outside it. *)
Definition scrape_with_playwright (u s : string) : M (option Extraction) :=
  asyncio_run in_event_loop (scrape_with_playwright_async u s).

(** Truth value of [data and data.get("price")]. *)
Definition has_price (data : option Extraction) : bool :=
  match data with
  | Some d => PyFloat.opt_truthy (d_price d)
  | None => false
  end.

(** The progress messages and the pacing [time.sleep] are left out:
    they do not reach the result (the configured delay is taken to be
    non-negative, as [time.sleep] requires). The call of
    [scrape_with_playwright] is under no [try]: what it raises leaves
    [scrape_product]. *)
Definition scrape_product (product : Product) : M ScrapeResult :=
  let u := p_url product in
  let s := resolved_store product in
  let pid := p_id product in
  let original_name := p_name product in
  data <- scrape_with_bs4 u s ;;
  data <- (if negb (has_price data) then scrape_with_playwright u s
           else ret data) ;;
  let failed :=
    {| product_id := pid; name := original_name; url := u; store := s;
       price := None; currency := "ARS"; in_stock := false;
       error := Some "No se pudo extraer el precio con BS4 ni Playwright." |} in
  match data with
  | Some d =>
      if PyFloat.opt_truthy (d_price d) then
        ret {| product_id := pid;
               name := if PyStr.truthy (d_name d) then d_name d
                       else original_name;
               url := u; store := s; price := d_price d;
               currency := d_currency d; in_stock := d_in_stock d;
               error := None |}
      else ret failed
  | None => ret failed
  end.

End Strategies.

(* ================================================================== *)
(** * A small document backend, used to run the pipeline on examples *)
(* ================================================================== *)

(** Documents are flat lists of elements read from markup of the form
    [<name attr='value' ...>text</name>]; filters follow BeautifulSoup on
    such documents, with regular expressions made of literal pieces,
    [.*] and [|]. *)
Module Flat.

Record element : Type := {
  el_name : string;
  el_attrs : list (string * string);
  el_text : string
}.

Inductive mode : Type :=
| MText | MOpen | MName | MAttrs | MAttrName | MAttrEq
| MAttrValue (quote : ascii) | MClose.

(** Reader state: the elements read so far, latest first; whether the
    latest is still open; the mode; the pending name and value. *)
Record reader : Type := {
  r_done : list element;
  r_open : bool;
  r_mode : mode;
  r_key : string;
  r_buf : string
}.

Definition snoc (s : string) (c : ascii) : string := s ++ String c EmptyString.

Definition add_text (els : list element) (c : ascii) : list element :=
  match els with
  | e :: rest =>
      {| el_name := el_name e; el_attrs := el_attrs e;
         el_text := snoc (el_text e) c |} :: rest
  | [] => []
  end.

Definition add_attr (els : list element) (k v : string) : list element :=
  match els with
  | e :: rest =>
      {| el_name := el_name e; el_attrs := el_attrs e ++ [(k, v)];
         el_text := el_text e |} :: rest
  | [] => []
  end.

Definition new_element (n : string) : element :=
  {| el_name := n; el_attrs := []; el_text := "" |}.

Definition step (r : reader) (c : ascii) : reader :=
  let mk d o m k b :=
    {| r_done := d; r_open := o; r_mode := m; r_key := k; r_buf := b |} in
  let d := r_done r in
  let gt := Ascii.eqb c ">" in
  match r_mode r with
  | MText =>
      if Ascii.eqb c "<" then mk d (r_open r) MOpen "" ""
      else mk (if r_open r then add_text d c else d) (r_open r) MText "" ""
  | MOpen =>
      if Ascii.eqb c "/" then mk d false MClose "" ""
      else mk d false MName "" (String c "")
  | MName =>
      if gt then mk (new_element (r_buf r) :: d) true MText "" ""
      else if PyStr.is_space c then mk (new_element (r_buf r) :: d) true MAttrs "" ""
      else mk d false MName "" (snoc (r_buf r) c)
  | MAttrs =>
      if gt then mk d true MText "" ""
      else if PyStr.is_space c || Ascii.eqb c "/" then mk d true MAttrs "" ""
      else mk d true MAttrName (String c "") ""
  | MAttrName =>
      if Ascii.eqb c "=" then mk d true MAttrEq (r_key r) ""
      else if gt then mk (add_attr d (r_key r) "") true MText "" ""
      else if PyStr.is_space c then mk (add_attr d (r_key r) "") true MAttrs "" ""
      else mk d true MAttrName (snoc (r_key r) c) ""
  | MAttrEq => mk d true (MAttrValue c) (r_key r) ""
  | MAttrValue q =>
      if Ascii.eqb c q then mk (add_attr d (r_key r) (r_buf r)) true MAttrs "" ""
      else mk d true (MAttrValue q) (r_key r) (snoc (r_buf r) c)
  | MClose =>
      if gt then mk d false MText "" "" else mk d false MClose "" ""
  end.

Fixpoint read (s : string) (r : reader) : reader :=
  match s with
  | EmptyString => r
  | String c s' => read s' (step r c)
  end.

Definition parse (markup : string) : list element :=
  List.rev (r_done (read markup
    {| r_done := []; r_open := false; r_mode := MText;
       r_key := ""; r_buf := "" |})).

(** The text after the first occurrence of [p] in [s]. *)
Fixpoint after (p s : string) : option string :=
  if PyStr.startswith p s
  then Some (String.substring (String.length p) (String.length s) s)
  else match s with
       | EmptyString => None
       | String _ s' => after p s'
       end.

(** Splits [s] at every occurrence of the separator [sep]; [skip]
    counts the characters of a separator still to be passed over. *)
Fixpoint split_from (sep s cur : string) (skip : nat) : list string :=
  match s with
  | EmptyString => [cur]
  | String c s' =>
      match skip with
      | S k => split_from sep s' cur k
      | O =>
          if PyStr.startswith sep s && PyStr.truthy sep
          then cur :: split_from sep s' "" (String.length sep - 1)
          else split_from sep s' (snoc cur c) 0
      end
  end.

Definition split (sep s : string) : list string := split_from sep s "" 0.

Fixpoint pieces_in (pieces : list string) (line : string) : bool :=
  match pieces with
  | [] => true
  | p :: ps =>
      match after p line with
      | Some rest => pieces_in ps rest
      | None => false
      end
  end.

(** [pattern.search(s)] *)
Definition search (pattern : string) (ignore_case : bool) (s : string) : bool :=
  let fold x := if ignore_case then PyStr.lower x else x in
  List.existsb
    (fun alt =>
       List.existsb (pieces_in (split ".*" (fold alt)))
                    (split (String "010" "") (fold s)))
    (split "|" pattern).

Definition matches (m : matcher) (v : string) : bool :=
  match m with
  | Lit s => String.eqb s v
  | Re p i => search p i v
  end.

(** The [class] attribute holds several values; a filter matches one
    of them or the whole attribute. *)
Definition attr_matches (k : string) (m : matcher) (v : string) : bool :=
  if String.eqb k "class"
  then List.existsb (matches m) (split " " v) || matches m v
  else matches m v.

Fixpoint lookup (k : string) (l : list (string * string)) : option string :=
  match l with
  | [] => None
  | (k', v) :: l' => if String.eqb k' k then Some v else lookup k l'
  end.

Definition selected (name : option string)
           (attrs : list (string * matcher)) (e : element) : bool :=
  match name with Some n => String.eqb n (el_name e) | None => true end &&
  List.forallb
    (fun '(k, m) =>
       match lookup k (el_attrs e) with
       | Some v => attr_matches k m v
       | None => false
       end) attrs.

#[export] Instance api : BeautifulSoupAPI (list element) element := {
  BeautifulSoup markup := Some (parse markup);
  find_all soup name attrs := List.filter (selected name attrs) soup;
  find_string soup m :=
    List.find (fun t => PyStr.truthy t && matches m t) (List.map el_text soup);
  tag_name := el_name;
  tag_get e k := lookup k (el_attrs e);
  get_text e := PyStr.strip (el_text e)
}.

End Flat.

(* ================================================================== *)
(** * What each strategy obtains, as plain functions of the world *)
(* ================================================================== *)

(** The document the lightweight strategy obtains with user agent [ua]:
    the body of a response whose status is not an error. *)
Definition bs4_document (w : World) (u ua : string) : option string :=
  match requests_get w u ua (TIMEOUT w) with
  | Response c t => if (400 <=? c) && (c <? 600) then None else Some t
  | ConnectionError => None
  end.

(** The page content the session body returns with user agent [ua],
    when none of its calls raises. *)
Definition session_document (w : World) (u ua : string) : option string :=
  if pw_launch w && pw_new_context w ua && pw_new_page w && pw_route w
     && pw_goto w u (TIMEOUT w * 1000) && pw_wait_for_timeout w 2000
  then match pw_content w with
       | Some c => if pw_close w then Some c else None
       | None => None
       end
  else None.

(** The document the heavy strategy obtains with user agent [ua]: the
    page content, when no Playwright call raises. *)
Definition rendered_document (w : World) (u ua : string) : option string :=
  if pw_import w && pw_start w && pw_stop w then session_document w u ua
  else None.

(** What a strategy reports for a document: the data of the store's
    parser when it holds a price, and nothing otherwise. *)
Definition extraction {Soup Tag : Type} {BS : BeautifulSoupAPI Soup Tag}
           (s u : string) (doc : option string) : option Extraction :=
  match doc with
  | Some text =>
      match BeautifulSoup text with
      | Some soup =>
          let data := dict_get PARSERS s parse_generic soup u in
          if PyFloat.opt_truthy (d_price data) then Some data else None
      | None => None
      end
  | None => None
  end.

(* ================================================================== *)
(** * The specification's wording, as definitions to compare with *)
(* ================================================================== *)

(** Store detection as an ordered table of substring predicates, the
    first matching row winning. *)
Definition store_table : list (list string * string) :=
  [ (["mercadolibre"; "meli"], "mercadolibre");
    (["amazon"], "amazon");
    (["hardgamers"], "hardgamers");
    (["garbarino"], "garbarino");
    (["fravega"], "fravega");
    (["musimundo"], "musimundo");
    (["fullh4rd"], "fullh4rd") ].

Fixpoint first_match (table : list (list string * string)) (u : string) : string :=
  match table with
  | [] => "generic"
  | (needles, s) :: rest =>
      if List.existsb (fun n => PyStr.contains n u) needles then s
      else first_match rest u
  end.

Definition store_identifiers : list string :=
  [ "mercadolibre"; "amazon"; "hardgamers"; "garbarino"; "fravega";
    "musimundo"; "fullh4rd"; "generic" ].

Definition is_separator (c : ascii) : bool :=
  Ascii.eqb c "," || Ascii.eqb c ".".

(** The separator, comma or period, that occurs last in the text. *)
Fixpoint last_separator (s : string) : option ascii :=
  match s with
  | EmptyString => None
  | String c s' =>
      match last_separator s' with
      | Some d => Some d
      | None => if is_separator c then Some c else None
      end
  end.

(** The text read with [dec] as its decimal point: digits are kept,
    every [dec] becomes a period, everything else (the other separator
    included) is dropped. *)
Fixpoint with_decimal_point (dec : ascii) (s : string) : string :=
  match s with
  | EmptyString => EmptyString
  | String c s' =>
      if PyStr.is_digit c then String c (with_decimal_point dec s')
      else if Ascii.eqb c dec then String "." (with_decimal_point dec s')
      else with_decimal_point dec s'
  end.

(** The digits of the text and the last of its periods. *)
Fixpoint digits_and_last_period (s : string) : string :=
  match s with
  | EmptyString => EmptyString
  | String c s' =>
      if PyStr.is_digit c then String c (digits_and_last_period s')
      else if Ascii.eqb c "." && negb (PyStr.has_char "." s')
      then String c (digits_and_last_period s')
      else digits_and_last_period s'
  end.

(** Every character of the text satisfies [f]. *)
Fixpoint every_char (f : ascii -> bool) (s : string) : bool :=
  match s with
  | EmptyString => true
  | String c s' => f c && every_char f s'
  end.

Definition digit_or_period (c : ascii) : bool :=
  PyStr.is_digit c || Ascii.eqb c ".".

(** Sign and class of the floats [float()] gives on unsigned decimal
    text: a positive zero, a positive finite number or plus infinity. *)
Definition nonnegative (x : float) : bool :=
  match x with
  | S754_zero false | S754_finite false _ _ | S754_infinity false => true
  | _ => false
  end.

(** Prices of that kind, as every price read by [parse_price_text]
    turns out to be. *)
Definition from_price_text (o : option float) : Prop :=
  forall x, o = Some x -> nonnegative x = true.

(** The two strategies in sequence: the lightweight one with user agent
    [ua0], and the heavy one with [ua1] when the first reports nothing. *)
Definition strategy_chain {Soup Tag : Type} {BS : BeautifulSoupAPI Soup Tag}
           (w : World) (u s ua0 ua1 : string) : option Extraction :=
  match extraction s u (bs4_document w u ua0) with
  | Some d => Some d
  | None => extraction s u (rendered_document w u ua1)
  end.

(** The result assembled from what the strategies report. *)
Definition pipeline_result (product : Product) (data : option Extraction)
  : ScrapeResult :=
  match data with
  | Some d =>
      {| product_id := p_id product;
         name := if PyStr.truthy (d_name d) then d_name d else p_name product;
         url := p_url product; store := resolved_store product;
         price := d_price d; currency := d_currency d;
         in_stock := d_in_stock d; error := None |}
  | None =>
      {| product_id := p_id product; name := p_name product;
         url := p_url product; store := resolved_store product;
         price := None; currency := "ARS"; in_stock := false;
         error := Some "No se pudo extraer el precio con BS4 ni Playwright." |}
  end.

(* ================================================================== *)
(** * Example inputs *)
(* ================================================================== *)

(** The binary64 numbers written [1234567.89], [1234.56], [12.345],
    [1234.567] and [12345.0]. *)
Definition f_1234567_89 : float := S754_finite false 5302428712241725 (-32).
Definition f_1234_56 : float := S754_finite false 5429652300748554 (-42).
Definition f_12_345 : float := S754_finite false 6949617174986097 (-49).
Definition f_1234_567 : float := S754_finite false 5429683087074132 (-42).
Definition f_12345 : float := S754_finite false 6786735522447360 (-39).

Definition start_state : State := {| rng := 0; trace := [] |}.

Definition sample_product : Product :=
  {| p_id := 7; p_name := "Teclado mecanico";
     p_url := "https://www.hardgamers.com.ar/p/teclado"; p_store := None |}.

(** No network and a browser whose navigation times out. *)
Definition offline_world : World :=
  {| TIMEOUT := 15;
     user_agents := fun n => if Nat.even n then "Mozilla/5.0 A" else "Mozilla/5.0 B";
     requests_get := fun _ _ _ => ConnectionError;
     pw_import := true; pw_start := true; pw_launch := true;
     pw_new_context := fun _ => true; pw_new_page := true; pw_route := true;
     pw_goto := fun _ _ => false;
     pw_wait_for_timeout := fun _ => true;
     pw_content := None; pw_close := true; pw_stop := true |}.

(** The plain request is refused (HTTP 403); the rendered page shows a
    title, a price and an out-of-stock notice. *)
Definition rendered_world (agents : nat -> string) : World :=
  {| TIMEOUT := 15;
     user_agents := agents;
     requests_get := fun _ _ _ => Response 403 "Forbidden";
     pw_import := true; pw_start := true; pw_launch := true;
     pw_new_context := fun _ => true; pw_new_page := true; pw_route := true;
     pw_goto := fun _ _ => true;
     pw_wait_for_timeout := fun _ => true;
     pw_content :=
       Some "<h1 class='product-title'>Teclado K552</h1><span class='price'>$ 45.999,50</span><p>Sin stock</p>";
     pw_close := true; pw_stop := true |}.

(** Both strategies obtain a page whose only price is zero. *)
Definition zero_price_world : World :=
  {| TIMEOUT := 15;
     user_agents := fun _ => "Mozilla/5.0";
     requests_get := fun _ _ _ =>
       Response 200 "<h1>Cable</h1><span class='price'>$ 0,00</span>";
     pw_import := true; pw_start := true; pw_launch := true;
     pw_new_context := fun _ => true; pw_new_page := true; pw_route := true;
     pw_goto := fun _ _ => true;
     pw_wait_for_timeout := fun _ => true;
     pw_content :=
       Some "<h1>Cable</h1><meta property='product:price:amount' content='0'>";
     pw_close := true; pw_stop := true |}.

(** No network; the rendered page shows a price of zero. *)
Definition zero_render_world : World :=
  {| TIMEOUT := 15;
     user_agents := fun _ => "Mozilla/5.0";
     requests_get := fun _ _ _ => ConnectionError;
     pw_import := true; pw_start := true; pw_launch := true;
     pw_new_context := fun _ => true; pw_new_page := true; pw_route := true;
     pw_goto := fun _ _ => true;
     pw_wait_for_timeout := fun _ => true;
     pw_content := Some "<h1>Cable HDMI</h1><span class='price'>$ 0,00</span>";
     pw_close := true; pw_stop := true |}.

(** The dictionary [cmd_agregar] of [telegram_bot.py] hands to
    [scrape_product] for a URL sent without a name. *)
Definition bot_product (u : string) : Product :=
  {| p_id := 0; p_name := "Nuevo producto"; p_url := u;
     p_store := Some (detect_store u) |}.

Definition out_of_stock_page : string :=
  "<h1>Mouse G203</h1><div class='precio'>$ 12.345,50</div><p>Producto sin stock</p>".

(* ================================================================== *)
(** * The bot's store badge *)
(* ================================================================== *)

Definition emojis : list (string * string) :=
  [ ("mercadolibre", "🛒");
    ("amazon", "📦");
    ("hardgamers", "🎮");
    ("garbarino", "🏠");
    ("fravega", "🛍️");
    ("musimundo", "🎵");
    ("fullh4rd", "💻");
    ("generic", "🌐") ].

Definition store_emoji (s : string) : string :=
  dict_get emojis (PyStr.lower s) "🏪".

(* ================================================================== *)
(** * The SQLite store of [database.py] *)
(* ================================================================== *)

(** The two tables are lists of rows in insertion order. Times
    ([datetime('now')], a fixed-width text) are modelled by the number of
    seconds they denote, which orders them as SQLite orders the texts;
    the time of each [INSERT] is an argument. Row ids are unbounded. *)
Module database.

Record product_row : Type := {
  r_id : Z;
  r_name : string;
  r_url : string;
  r_store : string;
  r_active : Z;
  r_created_at : Z
}.

Record price_row : Type := {
  h_id : Z;
  h_product_id : Z;
  h_price : option float;
  h_currency : string;
  h_in_stock : Z;
  h_checked_at : Z
}.

Record Db : Type := {
  products : list product_row;
  price_history : list price_row
}.

(** The columns the history queries select. *)
Record price_entry : Type := {
  e_price : option float;
  e_currency : string;
  e_in_stock : Z;
  e_checked_at : Z
}.

(** The database [init_db] creates in a new file. *)
Definition empty : Db := {| products := []; price_history := [] |}.

(** [INTEGER PRIMARY KEY AUTOINCREMENT] in tables no row is deleted
    from: one more than the largest id, starting at 1. *)
Definition next_rowid (ids : list Z) : Z := 1 + List.fold_right Z.max 0 ids.

(** [INSERT INTO products (name, url, store)]: [None] is the
    [IntegrityError] of the [UNIQUE] constraint on [url]. *)
Definition insert_product (name url store : string) (now : Z) (d : Db)
  : option (Z * Db) :=
  if List.existsb (fun r => String.eqb (r_url r) url) (products d) then None
  else
    let i := next_rowid (List.map r_id (products d)) in
    Some (i, {| products :=
                  products d ++
                  [ {| r_id := i; r_name := name; r_url := url;
                       r_store := store; r_active := 1;
                       r_created_at := now |} ];
                price_history := price_history d |}).

(** [SELECT id FROM products WHERE url = ?] and [fetchone()] *)
Definition select_by_url (url : string) (d : Db) : option product_row :=
  List.find (fun r => String.eqb (r_url r) url) (products d).

(** [add_product]; subscripting the missing row raises. *)
Definition add_product (name url store : string) (now : Z) (d : Db)
  : outcome Z * Db :=
  match insert_product name url store now d with
  | Some (i, d') => (Ok i, d')
  | None =>
      match select_by_url url d with
      | Some row => (Ok (r_id row), d)
      | None => (Raised, d)
      end
  end.

Definition get_active_products (d : Db) : list product_row :=
  List.filter (fun r => r_active r =? 1) (products d).

(** [save_price]; SQLite stores a NaN as [NULL]. *)
Definition save_price (product_id : Z) (price : float) (currency : string)
           (in_stock : bool) (now : Z) (d : Db) : Db :=
  {| products := products d;
     price_history :=
       price_history d ++
       [ {| h_id := next_rowid (List.map h_id (price_history d));
            h_product_id := product_id;
            h_price := match price with S754_nan => None | _ => Some price end;
            h_currency := currency;
            h_in_stock := if in_stock then 1 else 0;
            h_checked_at := now |} ] |}.

Fixpoint insert_by {A : Type} (le : A -> A -> bool) (x : A) (l : list A)
  : list A :=
  match l with
  | [] => [x]
  | y :: l' => if le x y then x :: l else y :: insert_by le x l'
  end.

(** [ORDER BY]: rows in the order [le], rows that compare equal staying
    in table order (SQLite leaves their order open). *)
Definition order_by {A : Type} (le : A -> A -> bool) (l : list A) : list A :=
  List.fold_right (insert_by le) [] l.

(** [LIMIT n]: a negative [n] is no limit. *)
Definition limit_rows {A : Type} (n : Z) (l : list A) : list A :=
  if n <? 0 then l else List.firstn (Z.to_nat n) l.

Definition entry_of (h : price_row) : price_entry :=
  {| e_price := h_price h; e_currency := h_currency h;
     e_in_stock := h_in_stock h; e_checked_at := h_checked_at h |}.

Definition rows_of (product_id : Z) (d : Db) : list price_row :=
  List.filter (fun h => h_product_id h =? product_id) (price_history d).

Definition get_price_history (product_id limit : Z) (d : Db)
  : list price_entry :=
  List.map entry_of
    (limit_rows limit
       (order_by (fun a b => h_checked_at a <=? h_checked_at b)
                 (rows_of product_id d))).


(** [UPDATE products SET active = 0 WHERE id = ?] *)
Definition remove_product (product_id : Z) (d : Db) : Db :=
  {| products :=
       List.map (fun r =>
                   if r_id r =? product_id
                   then {| r_id := r_id r; r_name := r_name r;
                           r_url := r_url r; r_store := r_store r;
                           r_active := 0; r_created_at := r_created_at r |}
                   else r) (products d);
     price_history := price_history d |}.

(** What the schema's [PRIMARY KEY] and [UNIQUE] constraints say. *)
Definition well_formed (d : Db) : Prop :=
  NoDup (List.map r_id (products d)) /\
  NoDup (List.map r_url (products d)) /\
  NoDup (List.map h_id (price_history d)).

(** Every record of the product is older than [now]. *)
Definition all_before (product_id now : Z) (d : Db) : Prop :=
  Forall (fun h => h_checked_at h < now) (rows_of product_id d).

(** Every price on record is a number greater than zero. *)
Definition prices_positive (l : list price_row) : Prop :=
  Forall (fun h => exists x, h_price h = Some x /\
                             PyFloat.gtb x PyFloat.zero = true) l.

End database.

(* ================================================================== *)
(** * The command-line tool of [manage.py] *)
(* ================================================================== *)

(** The commands print their progress, which is left out; what is kept
    is what they do to the database. Each takes the times of the
    [INSERT]s it may make. The tool is synchronous: its calls of
    [scrape_product] are made with no event loop running. *)
Module manage.

Import database.

(** The dictionary of a [products] row, as [scrape_product] reads it. *)
Definition product_of_row (r : product_row) : Product :=
  {| p_id := r_id r; p_name := r_name r; p_url := r_url r;
     p_store := Some (r_store r) |}.

(** [if result.price: db.save_price(...)] *)
Definition save_result (product_id : Z) (result : ScrapeResult) (now : Z)
           (d : Db) : Db :=
  match price result with
  | Some x =>
      if PyFloat.truthy x
      then save_price product_id x (currency result) (in_stock result) now d
      else d
  | None => d
  end.

Section Commands.

Context {Soup Tag : Type} {BS : BeautifulSoupAPI Soup Tag}.

(** [cmd_add], with [args.url] and [args.nombre]; [now1] and [now2] are
    the times of the product's and of the price's [INSERT]. *)
Definition cmd_add (w : World) (now1 now2 : Z) (arg_url nombre : string)
           (st : State) (d : Db) : outcome unit * State * Db :=
  let s := detect_store arg_url in
  let name_override := nombre in
  let temp :=
    {| p_id := 0;
       p_name := if PyStr.truthy name_override then name_override
                 else "Nuevo producto";
       p_url := arg_url; p_store := Some s |} in
  match scrape_product w false temp st with
  | (Raised, st') => (Raised, st', d)
  | (Ok result, st') =>
      let n :=
        if PyStr.truthy name_override then name_override
        else if PyStr.truthy (name result) then name result
        else "Producto de " ++ s in
      match add_product n arg_url s now1 d with
      | (Raised, d') => (Raised, st', d')
      | (Ok pid, d') => (Ok tt, st', save_result pid result now2 d')
      end
  end.

(** The [for p in products] loop of [cmd_check]: the [k]-th product is
    scraped in the world [env k] and its price stored at time
    [clock k]. *)
Fixpoint check_products (env : nat -> World) (clock : nat -> Z) (k : nat)
         (ps : list product_row) (st : State) (d : Db)
  : outcome unit * State * Db :=
  match ps with
  | [] => (Ok tt, st, d)
  | p :: rest =>
      match scrape_product (env k) false (product_of_row p) st with
      | (Raised, st') => (Raised, st', d)
      | (Ok result, st') =>
          check_products env clock (S k) rest st'
                         (save_result (r_id p) result (clock k) d)
      end
  end.

Definition cmd_check (env : nat -> World) (clock : nat -> Z)
           (st : State) (d : Db) : outcome unit * State * Db :=
  let ps := get_active_products d in
  match ps with
  | [] => (Ok tt, st, d)
  | _ => check_products env clock 0 ps st d
  end.

End Commands.

(** [cmd_remove], with [args.id] *)
Definition cmd_remove (arg_id : Z) (d : Db) : Db := remove_product arg_id d.

End manage.

(* ================================================================== *)
(** * More wording to compare with, and more examples *)
(* ================================================================== *)

(** What [remove_product] does to one row. *)
Definition deactivate (product_id : Z) (r : database.product_row)
  : database.product_row :=
  if database.r_id r =? product_id
  then {| database.r_id := database.r_id r; database.r_name := database.r_name r; database.r_url := database.r_url r;
          database.r_store := database.r_store r; database.r_active := 0;
          database.r_created_at := database.r_created_at r |}
  else r.

Definition is_digit_free (s : string) : bool :=
  every_char (fun c => negb (PyStr.is_digit c)) s.

Definition is_http_get (e : event) : bool :=
  match e with EvHttpGet _ _ _ => true | _ => false end.

Definition is_playwright (e : event) : bool :=
  match e with EvHttpGet _ _ _ => false | _ => true end.

(** Every call of the session body up to [page.content()] succeeds. *)
Definition content_reached (w : World) (u ua : string) : bool :=
  pw_launch w && pw_new_context w ua && pw_new_page w && pw_route w
  && pw_goto w u (TIMEOUT w * 1000) && pw_wait_for_timeout w 2000
  && match pw_content w with Some _ => true | None => false end.

(** The plain request succeeds and the page shows a price; the browser
    is not installed. *)
Definition static_world : World :=
  {| TIMEOUT := 15;
     user_agents := fun _ => "Mozilla/5.0";
     requests_get := fun _ _ _ =>
       Response 200 "<h1>Monitor 24</h1><span class='price'>$ 189.999,00</span>";
     pw_import := false; pw_start := false; pw_launch := false;
     pw_new_context := fun _ => false; pw_new_page := false;
     pw_route := false; pw_goto := fun _ _ => false;
     pw_wait_for_timeout := fun _ => false;
     pw_content := None; pw_close := false; pw_stop := false |}.

(** A database with one product and two prices on record. *)
Definition sample_db : database.Db :=
  {| database.products :=
       [ {| database.r_id := 1; database.r_name := "Monitor 24";
            database.r_url := "https://www.hardgamers.com.ar/p/monitor";
            database.r_store := "hardgamers"; database.r_active := 1;
            database.r_created_at := 1000 |} ];
     database.price_history :=
       [ {| database.h_id := 1; database.h_product_id := 1;
            database.h_price := Some f_12345;
            database.h_currency := "ARS"; database.h_in_stock := 1;
            database.h_checked_at := 1000 |};
         {| database.h_id := 2; database.h_product_id := 1;
            database.h_price := Some f_1234_56;
            database.h_currency := "ARS"; database.h_in_stock := 1;
            database.h_checked_at := 4600 |} ] |}.

(* ================================================================== *)
(** * Proof steps used repeatedly *)
(* ================================================================== *)

(** Is [c] the comma, the period, or neither? *)
Ltac char_cases c :=
  let E := fresh "E" in
  destruct (Ascii.eqb c ",") eqn:E;
  [ apply Ascii.eqb_eq in E; subst c | ];
  [ | let F := fresh "F" in
      destruct (Ascii.eqb c ".") eqn:F;
      [ apply Ascii.eqb_eq in F; subst c | ] ].

(** Exposes the state passing behind the monad's operations. *)
Ltac unfold_monad :=
  unfold try_except, async_with, call, of_option, ua_random, emit, bind,
    ret, raise;
  cbn [rng trace fst snd].

(** Splits on every option and every condition the goal branches on. *)
Ltac split_branches :=
  repeat match goal with
         | |- context [match ?o with Some _ => _ | None => _ end] =>
             destruct o
         | |- context [if ?b then _ else _] => destruct b
         end.

(* ================================================================== *)
(** * Properties of the string primitives *)
(* ================================================================== *)

Lemma digit_not_separator (c : ascii) :
  PyStr.is_digit c = true -> is_separator c = false.
Proof.
  intros D. unfold is_separator.
  char_cases c; try discriminate; reflexivity.
Qed.

Lemma space_not_kept (c : ascii) :
  PyStr.is_space c = true ->
  PyStr.is_digit c || Ascii.eqb c "." || Ascii.eqb c "," = false.
Proof.
  intros S. char_cases c; try discriminate.
  rewrite !orb_false_r.
  destruct c as [[] [] [] [] [] [] [] []]; try reflexivity; discriminate.
Qed.

Lemma filter_lstrip (f : ascii -> bool) (s : string) :
  (forall c, PyStr.is_space c = true -> f c = false) ->
  PyStr.filter f (PyStr.lstrip s) = PyStr.filter f s.
Proof.
  intros Hf. induction s as [|c s IH]; simpl; [reflexivity|].
  destruct (PyStr.is_space c) eqn:Sp; [|reflexivity].
  now rewrite (Hf c Sp).
Qed.

Lemma filter_rstrip (f : ascii -> bool) (s : string) :
  (forall c, PyStr.is_space c = true -> f c = false) ->
  PyStr.filter f (PyStr.rstrip s) = PyStr.filter f s.
Proof.
  intros Hf. induction s as [|c s IH]; simpl; [reflexivity|].
  destruct (PyStr.rstrip s) as [|c' r] eqn:R.
  - simpl in IH. rewrite <- IH.
    destruct (PyStr.is_space c) eqn:Sp.
    + now rewrite (Hf c Sp).
    + simpl. reflexivity.
  - rewrite <- IH. reflexivity.
Qed.

Lemma keep_price_chars_strip (s : string) :
  keep_price_chars (PyStr.strip s) = keep_price_chars s.
Proof.
  unfold keep_price_chars, PyStr.strip.
  rewrite filter_rstrip, filter_lstrip; auto using space_not_kept.
Qed.

Lemma has_char_truthy (c : ascii) (s : string) :
  PyStr.has_char c s = true -> PyStr.truthy s = true.
Proof. destruct s; [discriminate | reflexivity]. Qed.

Lemma has_comma_kept (s : string) :
  PyStr.has_char "," (keep_price_chars s) = PyStr.has_char "," s.
Proof.
  unfold keep_price_chars.
  induction s as [|c s IH]; simpl; [reflexivity|].
  char_cases c; simpl; rewrite ?IH; try reflexivity.
  destruct (PyStr.is_digit c); simpl; rewrite ?E, IH; reflexivity.
Qed.

Lemma has_period_kept (s : string) :
  PyStr.has_char "." (keep_price_chars s) = PyStr.has_char "." s.
Proof.
  unfold keep_price_chars.
  induction s as [|c s IH]; simpl; [reflexivity|].
  char_cases c; simpl; rewrite ?IH; try reflexivity.
  destruct (PyStr.is_digit c); simpl; rewrite ?F, IH; reflexivity.
Qed.

Lemma last_separator_kept (s : string) :
  last_separator (keep_price_chars s) = last_separator s.
Proof.
  unfold keep_price_chars.
  induction s as [|c s IH]; simpl; [reflexivity|].
  char_cases c; simpl; rewrite ?IH; try reflexivity.
  destruct (PyStr.is_digit c) eqn:D; simpl.
  - rewrite IH, (digit_not_separator c D). reflexivity.
  - rewrite IH. unfold is_separator. rewrite E, F. simpl.
    destruct (last_separator s); reflexivity.
Qed.

Lemma last_separator_is_separator (s : string) (d : ascii) :
  last_separator s = Some d -> d = ","%char \/ d = "."%char.
Proof.
  induction s as [|c s IH]; simpl; [discriminate|].
  destruct (last_separator s) as [d'|].
  - intros [= <-]. auto.
  - unfold is_separator. char_cases c; simpl; intros [= <-]; auto.
Qed.

Lemma last_separator_present (s : string) :
  PyStr.has_char "," s = true -> exists d, last_separator s = Some d.
Proof.
  induction s as [|c s IH]; simpl; [discriminate|].
  intros Hc. destruct (last_separator s) as [d|]; [eauto|].
  destruct (Ascii.eqb c ",") eqn:E; simpl in Hc.
  - unfold is_separator. rewrite E. simpl. eauto.
  - destruct (IH Hc) as [d Hd]. discriminate.
Qed.

(** [rfind] of the comma against [rfind] of the period: the greater
    index is that of the separator occurring last. *)
Lemma rfind_from_last_separator (s : string) :
  forall i lc lp, lc < i -> lp < i ->
    match last_separator s with
    | Some d =>
        if Ascii.eqb d ","
        then PyStr.rfind_from "." s i lp < PyStr.rfind_from "," s i lc
        else PyStr.rfind_from "," s i lc < PyStr.rfind_from "." s i lp
    | None =>
        PyStr.rfind_from "," s i lc = lc /\ PyStr.rfind_from "." s i lp = lp
    end.
Proof.
  induction s as [|c s IH]; intros i lc lp Hc Hp; simpl; [auto|].
  assert (IH' := IH (i + 1)
                   (if Ascii.eqb c "," then i else lc)
                   (if Ascii.eqb c "." then i else lp)).
  destruct (last_separator s) as [d|].
  - apply IH'; destruct (Ascii.eqb c ","), (Ascii.eqb c "."); lia.
  - destruct IH' as [Rc Rp];
      [destruct (Ascii.eqb c ","); lia | destruct (Ascii.eqb c "."); lia |].
    rewrite Rc, Rp. unfold is_separator.
    char_cases c; simpl; lia.
Qed.

Lemma with_decimal_point_comma (s : string) :
  PyStr.replace "," "." (PyStr.remove "." (keep_price_chars s))
  = with_decimal_point "," s.
Proof.
  unfold PyStr.replace, PyStr.remove, keep_price_chars.
  induction s as [|c s IH]; simpl; [reflexivity|].
  char_cases c; simpl; rewrite ?IH; try reflexivity.
  destruct (PyStr.is_digit c) eqn:D; simpl; rewrite ?F, ?E; simpl;
    rewrite ?E, ?F, ?IH; reflexivity.
Qed.

Lemma with_decimal_point_period (s : string) :
  PyStr.remove "," (keep_price_chars s) = with_decimal_point "." s.
Proof.
  unfold PyStr.remove, keep_price_chars.
  induction s as [|c s IH]; simpl; [reflexivity|].
  char_cases c; simpl; rewrite ?IH; try reflexivity.
  destruct (PyStr.is_digit c) eqn:D; simpl; rewrite ?F, ?E; simpl;
    rewrite ?E, ?F, ?IH; reflexivity.
Qed.

Lemma remove_n_zero (a : ascii) (s : string) : PyStr.remove_n a s 0 = s.
Proof.
  induction s as [|c s IH]; simpl; [reflexivity|].
  rewrite andb_false_r, IH. reflexivity.
Qed.

Lemma count_nonneg (a : ascii) (s : string) : 0 <= PyStr.count a s.
Proof.
  induction s as [|c s IH]; cbn [PyStr.count]; [lia|].
  destruct (Ascii.eqb c a); lia.
Qed.

Lemma has_char_count (a : ascii) (s : string) :
  PyStr.has_char a s = (0 <? PyStr.count a s).
Proof.
  induction s as [|c s IH]; cbn [PyStr.has_char PyStr.count];
    [reflexivity|].
  pose proof (count_nonneg a s).
  destruct (Ascii.eqb c a); cbn [orb].
  - symmetry. apply Z.ltb_lt. lia.
  - exact IH.
Qed.

(** Without a comma, the cleaned text with all its periods but the last
    removed is the text's digits and last period; with at most one
    period the cleaned text already is. *)
Lemma periods_but_last (s : string) :
  PyStr.has_char "," s = false ->
  (PyStr.count "." (keep_price_chars s) <= 1 ->
   keep_price_chars s = digits_and_last_period s) /\
  (1 <= PyStr.count "." (keep_price_chars s) ->
   PyStr.remove_n "." (keep_price_chars s)
                  (PyStr.count "." (keep_price_chars s) - 1)
   = digits_and_last_period s).
Proof.
  induction s as [|c s IH]; intros Hc;
    [cbn; split; [reflexivity|lia]|].
  cbn [PyStr.has_char] in Hc.
  apply orb_false_elim in Hc. destruct Hc as [E Hc].
  specialize (IH Hc). destruct IH as [IH1 IH2].
  pose proof (count_nonneg "." (keep_price_chars s)) as Hn.
  pose proof (has_char_count "." (keep_price_chars s)) as Hh.
  rewrite has_period_kept in Hh.
  unfold keep_price_chars in *.
  cbn [PyStr.filter digits_and_last_period]. rewrite E, orb_false_r.
  destruct (Ascii.eqb c ".") eqn:F.
  - apply Ascii.eqb_eq in F. subst c.
    change (PyStr.is_digit ".") with false. cbn [orb andb].
    cbn [PyStr.count PyStr.remove_n]. rewrite Hh.
    change ("." =? ".")%char with true. cbn [andb].
    set (n := PyStr.count "." _) in *.
    destruct (0 <? n) eqn:Pos; cbn [negb].
    + apply Z.ltb_lt in Pos. split; [lia|]. intros _.
      replace (1 + n - 1 =? 0) with false
        by (symmetry; apply Z.eqb_neq; lia).
      cbn [negb]. rewrite <- IH2 by lia. f_equal. lia.
    + apply Z.ltb_ge in Pos. assert (n = 0) as N0 by lia.
      rewrite N0 in *. change (1 + 0 - 1 =? 0) with true. cbn [negb].
      rewrite remove_n_zero.
      split; intros _; f_equal; apply IH1; lia.
  - rewrite orb_false_r. cbn [andb].
    destruct (PyStr.is_digit c) eqn:D.
    + cbn [PyStr.count PyStr.remove_n]. rewrite F. cbn [andb].
      rewrite Z.add_0_l.
      split; intros H; f_equal; auto.
    + split; auto.
Qed.

Lemma every_char_filter (f g : ascii -> bool) (s : string) :
  (forall c, g c = true -> f c = true) ->
  every_char f (PyStr.filter g s) = true.
Proof.
  intros H. induction s as [|c s IH]; cbn [PyStr.filter]; [reflexivity|].
  destruct (g c) eqn:G; [|exact IH].
  cbn [every_char]. now rewrite (H c G), IH.
Qed.

Lemma every_char_filter_of (f g h : ascii -> bool) (s : string) :
  (forall c, h c = true -> g c = true -> f c = true) ->
  every_char h s = true -> every_char f (PyStr.filter g s) = true.
Proof.
  intros H. induction s as [|c s IH]; cbn [PyStr.filter every_char];
    [reflexivity|].
  intros K. apply andb_prop in K. destruct K as [K1 K2].
  destruct (g c) eqn:G; [|auto].
  cbn [every_char]. now rewrite (H c K1 G), IH.
Qed.

Lemma every_char_kept (s : string) :
  every_char (fun c => PyStr.is_digit c || Ascii.eqb c "." || Ascii.eqb c ",")
             (keep_price_chars s) = true.
Proof. apply every_char_filter. auto. Qed.

Lemma every_char_map (f g : ascii -> bool) (h : ascii -> ascii) (s : string) :
  (forall c, g c = true -> f (h c) = true) ->
  every_char g s = true -> every_char f (PyStr.map h s) = true.
Proof.
  intros H. induction s as [|c s IH]; cbn [PyStr.map every_char];
    [reflexivity|].
  intros G. apply andb_prop in G. destruct G as [G1 G2].
  now rewrite (H c G1), IH.
Qed.

Lemma every_char_remove_n (f : ascii -> bool) (a : ascii) (s : string) :
  forall n, every_char f s = true ->
            every_char f (PyStr.remove_n a s n) = true.
Proof.
  induction s as [|c s IH]; intros n; cbn [PyStr.remove_n every_char];
    [reflexivity|].
  intros G. apply andb_prop in G. destruct G as [G1 G2].
  destruct (Ascii.eqb c a && negb (n =? 0)); [auto|].
  cbn [every_char]. now rewrite G1, IH.
Qed.

Lemma every_char_without_comma (s : string) :
  PyStr.has_char "," (keep_price_chars s) = false ->
  every_char digit_or_period (keep_price_chars s) = true.
Proof.
  unfold keep_price_chars, digit_or_period.
  induction s as [|c s IH]; cbn [PyStr.filter]; [reflexivity|].
  destruct (PyStr.is_digit c || Ascii.eqb c "." || Ascii.eqb c ",") eqn:K;
    [|exact IH].
  cbn [PyStr.has_char every_char]. intros H.
  apply orb_false_elim in H. destruct H as [E H].
  rewrite E, orb_false_r in K. now rewrite K, IH.
Qed.

(** The text handed to [float()] holds digits and periods only, the
    strings [PyFloat.of_string] is written for. *)
Lemma float_argument_chars (text : string) :
  every_char digit_or_period
             (normalize_separators (keep_price_chars (PyStr.strip text)))
  = true.
Proof.
  rewrite keep_price_chars_strip. unfold normalize_separators.
  pose proof (every_char_kept text) as K.
  destruct (PyStr.has_char "," (keep_price_chars text)) eqn:C; cbn [andb].
  - assert (every_char digit_or_period
              (PyStr.replace "," "." (PyStr.remove "." (keep_price_chars text)))
            = true) as A.
    { apply every_char_map
        with (g := fun c => PyStr.is_digit c || Ascii.eqb c ",").
      - intros c H. unfold digit_or_period. char_cases c; try reflexivity.
        rewrite orb_false_r in H. rewrite H. reflexivity.
      - revert K. apply every_char_filter_of. intros c H1 H2.
        char_cases c; try discriminate; try reflexivity.
        rewrite !orb_false_r in *. exact H1. }
    assert (every_char digit_or_period
              (PyStr.remove "," (keep_price_chars text)) = true) as B.
    { revert K. apply every_char_filter_of. intros c H1 H2.
      unfold digit_or_period.
      char_cases c; try discriminate; try reflexivity.
      rewrite !orb_false_r in *. exact H1. }
    assert (every_char digit_or_period
              (PyStr.replace "," "." (keep_price_chars text)) = true) as D.
    { revert K. apply every_char_map. intros c H.
      unfold digit_or_period. char_cases c; try reflexivity.
      rewrite !orb_false_r in H. rewrite H. reflexivity. }
    destruct (PyStr.has_char "." _); [destruct (_ >? _)|]; assumption.
  - pose proof (every_char_without_comma text C) as A.
    destruct (_ >? 1); [apply every_char_remove_n|]; exact A.
Qed.

(* ================================================================== *)
(** * Store detection and price normalisation: specified properties *)
(* ================================================================== *)

(** The binary64 values named above are the ones the prover's own
    reader of decimal float literals produces. *)
#[local] Set Warnings "-inexact-float".
Lemma float_literals :
  Prim2SF 1234567.89 = f_1234567_89 /\ Prim2SF 1234.56 = f_1234_56 /\
  Prim2SF 12.345 = f_12_345 /\ Prim2SF 1234.567 = f_1234_567 /\
  Prim2SF 12345 = f_12345.
Proof. vm_compute. repeat split. Qed.

(** [PyFloat.of_string] rounds as that reader does, also past 2^53 and
    on a tie. *)
Lemma of_string_rounds_to_nearest :
  PyFloat.of_string "0.1" = Some (Prim2SF 0.1) /\
  PyFloat.of_string "45999.50" = Some (Prim2SF 45999.5) /\
  PyFloat.of_string "0.30000000000000004" = Some (Prim2SF 0.30000000000000004) /\
  PyFloat.of_string "9007199254740993" = Some (Prim2SF 9007199254740992) /\
  PyFloat.of_string "9007199254740995" = Some (Prim2SF 9007199254740996) /\
  PyFloat.of_string "123456789012345678901234567890."
  = Some (Prim2SF 123456789012345678901234567890) /\
  PyFloat.of_string ".000001" = Some (Prim2SF 1e-6).
Proof. vm_compute. repeat split. Qed.
#[local] Set Warnings "+inexact-float".

(** C6. [detect_store] is a total function that lower-cases the URL and
    tests the ordered substring predicates mercadolibre/meli, amazon,
    hardgamers, garbarino, fravega, musimundo, fullh4rd, the first match
    winning; its value is always one of the eight store identifiers, and
    it is "generic" exactly when no predicate matches. The two URLs of
    the specification map to "mercadolibre" and "generic". *)
Theorem detect_store_first_match :
  (forall u, detect_store u = first_match store_table (PyStr.lower u)) /\
  (forall u, In (detect_store u) store_identifiers) /\
  (forall u, detect_store u = "generic" <->
             forall n, In n (List.flat_map fst store_table) ->
                       PyStr.contains n (PyStr.lower u) = false) /\
  detect_store "https://articulo.mercadolibre.com.ar/x" = "mercadolibre" /\
  detect_store "https://unknownshop.com/p" = "generic".
Proof.
  split; [|split; [|split; [|split; reflexivity]]].
  - intros u. unfold detect_store, store_table.
    cbn [first_match List.existsb]. rewrite !orb_false_r. reflexivity.
  - intros u. unfold detect_store, store_identifiers.
    repeat match goal with
           | |- context [if ?b then _ else _] => destruct b
           end; simpl; tauto.
  - intros u. unfold detect_store. cbn [List.flat_map store_table fst app].
    split.
    + intros G n Hn.
      repeat match type of G with
             | context [PyStr.contains ?x ?y] =>
                 let C := fresh "C" in
                 destruct (PyStr.contains x y) eqn:C; simpl in G;
                 try discriminate G
             end.
      simpl in Hn. intuition (subst; assumption).
    + intros Hn.
      rewrite !Hn by (simpl; tauto). reflexivity.
Qed.

(** C1. For every text holding both a comma and a period,
    [parse_price_text] reads the separator that occurs last as the
    decimal point and drops every occurrence of the other one: its value
    is [float] of the text's digits with the last-occurring separator
    written as a period. So ["1.234.567,89"] gives 1234567.89 and
    ["1,234.56"] gives 1234.56. *)
Theorem parse_price_text_later_separator_decimal :
  (forall text,
      PyStr.has_char "," text = true -> PyStr.has_char "." text = true ->
      exists dec,
        last_separator text = Some dec /\
        parse_price_text text
        = PyFloat.of_string (with_decimal_point dec text)) /\
  parse_price_text "1.234.567,89" = Some f_1234567_89 /\
  parse_price_text "1,234.56" = Some f_1234_56.
Proof.
  split; [|split; vm_compute; reflexivity].
  intros text Hc Hp.
  destruct (last_separator_present text Hc) as [dec Hd].
  exists dec. split; [exact Hd|].
  unfold parse_price_text, normalize_separators.
  rewrite (has_char_truthy _ _ Hc). simpl negb. cbv iota.
  rewrite keep_price_chars_strip, has_comma_kept, has_period_kept, Hc, Hp.
  simpl andb. cbv iota.
  pose proof (rfind_from_last_separator (keep_price_chars text) 0 (-1) (-1)
                ltac:(lia) ltac:(lia)) as R.
  rewrite last_separator_kept, Hd in R. unfold PyStr.rfind.
  destruct (last_separator_is_separator _ _ Hd) as [-> | ->]; simpl in R.
  - replace (_ >? _) with true by (symmetry; apply Z.gtb_lt; exact R).
    now rewrite with_decimal_point_comma.
  - replace (_ >? _) with false
      by (symmetry; rewrite Z.gtb_ltb; apply Z.ltb_ge; lia).
    now rewrite with_decimal_point_period.
Qed.

Lemma parse_price_text_later_separator_decimal_witness :
  exists dec,
    last_separator "1.234.567,89" = Some dec /\
    parse_price_text "1.234.567,89"
    = PyFloat.of_string (with_decimal_point dec "1.234.567,89").
Proof.
  apply (proj1 parse_price_text_later_separator_decimal "1.234.567,89");
    reflexivity.
Defined.

(** C5, as stated, fails: ["12.345"] is read as 12.345, not 12345. *)
Lemma parse_price_text_12_345_not_12345 :
  ~ (parse_price_text "12.345" = Some f_12345).
Proof. vm_compute. discriminate. Qed.

(** C5, amended. For a text without a comma, all periods but the last
    are removed and the last one is the decimal point: the value is
    [float] of the text's digits and last period. A single period is
    therefore kept: ["12.345"] gives 12.345, while ["1.234.567"] gives
    1234.567. *)
Theorem parse_price_text_periods_only :
  (forall text,
      PyStr.has_char "," text = false ->
      parse_price_text text
      = PyFloat.of_string (digits_and_last_period text)) /\
  parse_price_text "12.345" = Some f_12_345 /\
  parse_price_text "1.234.567" = Some f_1234_567.
Proof.
  split; [|split; vm_compute; reflexivity].
  intros text Hc. unfold parse_price_text.
  destruct text as [|c text']; [reflexivity|].
  set (text := String c text') in *. simpl negb. cbv iota.
  unfold normalize_separators.
  rewrite keep_price_chars_strip, has_comma_kept, Hc. simpl andb. cbv iota.
  destruct (periods_but_last text Hc) as [P1 P2].
  destruct (_ >? 1) eqn:G.
  - apply Z.gtb_lt in G. rewrite P2 by lia. reflexivity.
  - rewrite Z.gtb_ltb in G. apply Z.ltb_ge in G. rewrite P1 by lia.
    reflexivity.
Qed.

Lemma parse_price_text_periods_only_witness :
  parse_price_text "12.345"
  = PyFloat.of_string (digits_and_last_period "12.345").
Proof.
  apply (proj1 parse_price_text_periods_only "12.345"). reflexivity.
Defined.

(* ================================================================== *)
(** * Sign of parsed prices *)
(* ================================================================== *)

Lemma shr_1_nonneg (mrs : shr_record) :
  0 <= shr_m mrs -> 0 <= shr_m (shr_1 mrs).
Proof.
  destruct mrs as [m r s]. cbn [shr_m]. intros Hm.
  destruct m as [|p|p]; [cbn; lia | destruct p; cbn; lia | lia].
Qed.

Lemma iter_shr_1_nonneg (p : positive) :
  forall mrs, 0 <= shr_m mrs -> 0 <= shr_m (iter_pos shr_1 p mrs).
Proof.
  induction p as [p IH|p IH|]; intros mrs Hm; cbn [iter_pos].
  - apply IH, IH, shr_1_nonneg, Hm.
  - apply IH, IH, Hm.
  - apply shr_1_nonneg, Hm.
Qed.

Lemma shr_fexp_nonneg (m e : Z) (l : location) :
  0 <= m -> 0 <= shr_m (fst (shr_fexp PyFloat.prec PyFloat.emax m e l)).
Proof.
  intros Hm. unfold shr_fexp, shr.
  assert (0 <= shr_m (shr_record_of_loc m l)) as H0
      by (destruct l as [|[]]; exact Hm).
  destruct (_ - e) as [|p|p]; cbn [fst]; auto using iter_shr_1_nonneg.
Qed.

Lemma round_nearest_even_nonneg (m : Z) (l : location) :
  0 <= m -> 0 <= round_nearest_even m l.
Proof.
  intros Hm. unfold round_nearest_even.
  destruct l as [|[]]; try destruct (Z.even m); lia.
Qed.

Lemma binary_round_aux_sign (sx : bool) (mx ex : Z) (lx : location) :
  0 <= mx ->
  match binary_round_aux PyFloat.prec PyFloat.emax sx mx ex lx with
  | S754_zero s | S754_infinity s | S754_finite s _ _ => s = sx
  | S754_nan => False
  end.
Proof.
  intros Hm. unfold binary_round_aux.
  pose proof (shr_fexp_nonneg mx ex lx Hm) as H1.
  destruct (shr_fexp _ _ mx ex lx) as [mrs' e'] eqn:S1. cbn [fst] in H1.
  pose proof (shr_fexp_nonneg _ e' loc_Exact
                (round_nearest_even_nonneg _ (loc_of_shr_record mrs') H1)) as H2.
  destruct (shr_fexp _ _ (round_nearest_even _ _) e' loc_Exact)
    as [mrs'' e''] eqn:S2.
  cbn [fst] in H2.
  destruct (shr_m mrs'') as [|p|p]; [reflexivity | | lia].
  destruct (e'' <=? _); reflexivity.
Qed.

Lemma of_decimal_nonnegative (m : Z) (k : nat) :
  nonnegative (PyFloat.of_decimal m k) = true.
Proof.
  unfold PyFloat.of_decimal.
  destruct m as [|p|p]; try reflexivity.
  unfold SFdiv, SFdiv_core_binary.
  set (m' := match _ - _ with Z0 => Z.pos p | Z.pos _ => _ | Z.neg _ => 0 end).
  assert (0 <= m') as Hm'.
  { subst m'. destruct (_ - _); [lia | | lia].
    apply Z.shiftl_nonneg. lia. }
  set (d := Z.pos (Z.to_pos _)) in *.
  pose proof (Z.div_eucl_eq m' d ltac:(subst d; lia)) as Hd.
  pose proof (Z.mod_pos_bound m' d ltac:(subst d; lia)) as Hr.
  unfold Z.modulo in Hr.
  pose proof (Z.div_pos m' d Hm' ltac:(subst d; lia)) as Hq.
  unfold Z.div in Hq.
  destruct (Z.div_eucl m' d) as [q r].
  cbn [xorb].
  pose proof (binary_round_aux_sign false q
                (Z.min (fexp PyFloat.prec PyFloat.emax
                          (Zdigits2 (Z.pos p) + 0 - (Zdigits2 d + 0)))
                       (0 - 0))
                (new_location d r) Hq) as B.
  destruct (binary_round_aux _ _ _ _ _ _) as [s|s| |s mm ee];
    try (subst s; reflexivity); contradiction.
Qed.

Lemma of_string_nonnegative (s : string) (x : float) :
  PyFloat.of_string s = Some x -> nonnegative x = true.
Proof.
  unfold PyFloat.of_string.
  destruct (PyFloat.split_dot s) as [ip [fp|]];
    match goal with |- context [if ?b then _ else _] => destruct b end;
    intros [= <-]; apply of_decimal_nonnegative.
Qed.

Lemma parse_price_text_nonnegative (text : string) (x : float) :
  parse_price_text text = Some x -> nonnegative x = true.
Proof.
  unfold parse_price_text.
  destruct (negb _); [discriminate | apply of_string_nonnegative].
Qed.

(** A true float of that kind is greater than zero. *)
Lemma nonnegative_truthy_positive (x : float) :
  nonnegative x = true -> PyFloat.truthy x = true ->
  PyFloat.gtb x PyFloat.zero = true.
Proof.
  destruct x as [s|s| |s m e]; try destruct s; try discriminate; reflexivity.
Qed.

(* ================================================================== *)
(** * Properties of the parsers *)
(* ================================================================== *)

Section ParserProperties.

Context {Soup Tag : Type} {BS : BeautifulSoupAPI Soup Tag}.

Lemma from_price_text_none : from_price_text None.
Proof. intros x H. discriminate H. Qed.

Lemma from_price_text_parse (t : string) :
  from_price_text (parse_price_text t).
Proof. intros x H. exact (parse_price_text_nonnegative t x H). Qed.

Hint Resolve from_price_text_none from_price_text_parse : core.

Lemma generic_price_loop_in_stock (tags : list Tag) (r : Extraction) :
  d_in_stock (generic_price_loop tags r) = d_in_stock r.
Proof.
  induction tags as [|t tags IH]; cbn [generic_price_loop]; [reflexivity|].
  destruct (parse_price_text (get_text t)) as [p|]; [|exact IH].
  destruct (PyFloat.truthy p && PyFloat.gtb p PyFloat.zero);
    [reflexivity | exact IH].
Qed.

Lemma generic_price_loop_price (tags : list Tag) (r : Extraction) :
  from_price_text (d_price r) ->
  from_price_text (d_price (generic_price_loop tags r)).
Proof.
  intros Hr. induction tags as [|t tags IH]; cbn [generic_price_loop];
    [exact Hr|].
  destruct (parse_price_text (get_text t)) as [p|] eqn:P; [|exact IH].
  destruct (PyFloat.truthy p && PyFloat.gtb p PyFloat.zero); [|exact IH].
  cbn. rewrite <- P. auto.
Qed.

Lemma amazon_price_loop_price (soup : Soup)
      (selectors : list (string * list (string * matcher))) :
  forall r, from_price_text (d_price r) ->
            from_price_text (d_price (amazon_price_loop soup selectors r)).
Proof.
  induction selectors as [|[tag attrs] rest IH]; intros r Hr;
    cbn [amazon_price_loop]; [exact Hr|].
  destruct (find soup (Some tag) attrs) as [t|]; [|auto].
  cbn [set_price d_price].
  match goal with
  | |- context [PyFloat.opt_truthy (parse_price_text ?x)] =>
      destruct (PyFloat.opt_truthy (parse_price_text x))
  end.
  - cbn. auto.
  - apply IH. cbn. auto.
Qed.

Lemma parse_mercadolibre_price (soup : Soup) (u : string) :
  from_price_text (d_price (parse_mercadolibre soup u)).
Proof.
  unfold parse_mercadolibre.
split_branches; cbn; auto.
Qed.

Lemma parse_hardgamers_price (soup : Soup) (u : string) :
  from_price_text (d_price (parse_hardgamers soup u)).
Proof.
  unfold parse_hardgamers.
split_branches; cbn; auto.
Qed.

Lemma parse_amazon_price (soup : Soup) (u : string) :
  from_price_text (d_price (parse_amazon soup u)).
Proof.
  unfold parse_amazon.
  set (r := amazon_price_loop soup price_selectors _).
  assert (from_price_text (d_price r)) as Hr.
  { subst r. apply amazon_price_loop_price.
    destruct (find soup (Some "span") [("id", Lit "productTitle")]); cbn; auto. }
  clearbody r.
split_branches; cbn; auto.
Qed.

Lemma parse_generic_price (soup : Soup) (u : string) :
  from_price_text (d_price (parse_generic soup u)).
Proof.
  unfold parse_generic.
  destruct (find soup (Some "meta") [("property", Lit "product:price:amount")]).
  - cbn. auto.
  - apply generic_price_loop_price.
    repeat match goal with
           | |- context [match ?o with Some _ => _ | None => _ end] =>
               destruct o
           end; cbn; auto.
Qed.

Lemma parse_generic_in_stock (soup : Soup) (u : string) :
  d_in_stock (parse_generic soup u) = true.
Proof.
  unfold parse_generic.
  destruct (find soup (Some "meta") [("property", Lit "product:price:amount")]).
  - repeat match goal with
           | |- context [match ?o with Some _ => _ | None => _ end] =>
               destruct o
           end; reflexivity.
  - rewrite generic_price_loop_in_stock.
    repeat match goal with
           | |- context [match ?o with Some _ => _ | None => _ end] =>
               destruct o
           end; reflexivity.
Qed.

(** [PARSERS.get(store, parse_generic)] is one of the four parsers. *)
Lemma registry_cases (s : string) :
  let parser := dict_get PARSERS s parse_generic in
  parser = parse_mercadolibre \/ parser = parse_amazon \/
  parser = parse_hardgamers \/ parser = parse_generic.
Proof.
  unfold PARSERS. cbn [dict_get].
  repeat match goal with
         | |- context [if ?b then _ else _] => destruct b
         end; auto.
Qed.

Lemma registry_price (s : string) (soup : Soup) (u : string) :
  from_price_text (d_price (dict_get PARSERS s parse_generic soup u)).
Proof.
  destruct (registry_cases s) as [E|[E|[E|E]]]; cbv zeta in E; rewrite E.
  - apply parse_mercadolibre_price.
  - apply parse_amazon_price.
  - apply parse_hardgamers_price.
  - apply parse_generic_price.
Qed.

Lemma extraction_truthy (s u : string) (doc : option string) (d : Extraction) :
  extraction s u doc = Some d -> PyFloat.opt_truthy (d_price d) = true.
Proof.
  unfold extraction. destruct doc as [text|]; [|discriminate].
  destruct (BeautifulSoup text) as [soup|]; [|discriminate].
  destruct (PyFloat.opt_truthy _) eqn:T; [|discriminate].
  intros [= <-]. exact T.
Qed.

Lemma extraction_positive (s u : string) (doc : option string) (d : Extraction) :
  extraction s u doc = Some d ->
  exists x, d_price d = Some x /\ PyFloat.gtb x PyFloat.zero = true.
Proof.
  intros H. pose proof (extraction_truthy _ _ _ _ H) as T.
  unfold extraction in H. destruct doc as [text|]; [|discriminate].
  destruct (BeautifulSoup text) as [soup|]; [|discriminate].
  destruct (PyFloat.opt_truthy _); [|discriminate].
  injection H as <-.
  pose proof (registry_price s soup u) as P.
  destruct (d_price _) as [x|]; [|discriminate].
  exists x. split; [reflexivity|].
  apply nonnegative_truthy_positive; [apply P; reflexivity | exact T].
Qed.

End ParserProperties.

(** C10. The generic parser reports [in_stock = true] for every
    document, whatever the document says about stock; it is the parser
    registered for garbarino, fravega, musimundo, fullh4rd and generic,
    and the default for any other store. On a page that says "sin stock"
    the hardgamers parser reports [false] and the generic one [true]. *)
Theorem parse_generic_always_in_stock :
  (forall (Soup Tag : Type) (BS : BeautifulSoupAPI Soup Tag)
          (soup : Soup) (u : string),
      d_in_stock (parse_generic soup u) = true /\
      Forall (fun s => dict_get PARSERS s parse_generic soup u
                       = parse_generic soup u)
             ["garbarino"; "fravega"; "musimundo"; "fullh4rd"; "generic";
              "unknownshop"]) /\
  option_map (fun soup =>
                (d_in_stock (parse_hardgamers (BS := Flat.api) soup ""),
                 d_in_stock (parse_generic (BS := Flat.api) soup "")))
             (BeautifulSoup (BeautifulSoupAPI := Flat.api) out_of_stock_page)
  = Some (false, true).
Proof.
  split; [|vm_compute; reflexivity].
  intros Soup Tag BS soup u. split.
  - apply parse_generic_in_stock.
  - repeat constructor.
Qed.

(* ================================================================== *)
(** * Runs of the fetch strategies *)
(* ================================================================== *)

Section Runs.

Context {Soup Tag : Type} {BS : BeautifulSoupAPI Soup Tag}.
Variable w : World.

(** The lightweight strategy always returns, with what the parser
    extracts from the document it fetched; it draws one user agent and
    makes one request. *)
Lemma scrape_with_bs4_run (u s : string) (st : State) :
  scrape_with_bs4 w u s st
  = (Ok (extraction s u (bs4_document w u (user_agents w (rng st)))),
     {| rng := S (rng st);
        trace := trace st
                 ++ [EvHttpGet u (user_agents w (rng st)) (TIMEOUT w)] |}).
Proof.
  unfold scrape_with_bs4, http_get, raise_for_status, response_text,
    extraction, bs4_document.
  unfold_monad.
  destruct (requests_get w u _ _) as [|c t]; [reflexivity|].
  cbn [rng trace fst snd].
  destruct ((400 <=? c) && (c <? 600)); [reflexivity|].
  destruct (BeautifulSoup t) as [soup|]; [|reflexivity].
  cbv zeta. destruct (PyFloat.opt_truthy _); reflexivity.
Qed.

(** The session body: its outcome, and its calls, among which the
    browser is closed at most once and the manager never entered or
    left. *)
Lemma playwright_session_run (u : string) (st : State) :
  exists body n,
    playwright_session w u st
    = (match session_document w u (user_agents w (rng st)) with
       | Some c => Ok c
       | None => Raised
       end,
       {| rng := n; trace := trace st ++ body |}) /\
    occurrences EvPlaywrightStart body = 0%nat /\
    occurrences EvPlaywrightStop body = 0%nat /\
    (occurrences EvBrowserClose body <= 1)%nat.
Proof.
  unfold playwright_session, session_document. unfold_monad.
  destruct (pw_launch w); cbn [andb rng trace];
    [destruct (pw_new_context w (user_agents w (rng st)));
     cbn [andb rng trace];
     [destruct (pw_new_page w); cbn [andb rng trace];
      [destruct (pw_route w); cbn [andb rng trace];
       [destruct (pw_goto w u (TIMEOUT w * 1000)); cbn [andb rng trace];
        [destruct (pw_wait_for_timeout w 2000); cbn [andb rng trace];
         [destruct (pw_content w); cbn [andb rng trace];
          [destruct (pw_close w); cbn [andb rng trace]|]|]|]|]|]|]|];
    rewrite <- ?app_assoc; cbn [app];
    eexists; eexists;
    (split; [reflexivity | cbn; repeat split; lia]).
Qed.

(** The heavy strategy always returns, with what the parser extracts
    from the rendered document. When the manager was entered its calls
    are the entry, the calls of the body and the exit, in that order;
    otherwise the browser was never reached. *)
Lemma scrape_with_playwright_async_run (u s : string) (st : State) :
  exists log n,
    scrape_with_playwright_async w u s st
    = (Ok (extraction s u
             (rendered_document w u (user_agents w (rng st)))),
       {| rng := n; trace := trace st ++ log |}) /\
    if pw_import w && pw_start w
    then exists body,
        log = EvPlaywrightStart :: body ++ [EvPlaywrightStop] /\
        occurrences EvPlaywrightStart body = 0%nat /\
        occurrences EvPlaywrightStop body = 0%nat /\
        (occurrences EvBrowserClose body <= 1)%nat
    else log = [] \/ log = [EvPlaywrightStart].
Proof.
  unfold scrape_with_playwright_async, rendered_document, extraction.
  unfold try_except, async_with, bind at 1 2 3.
  destruct (pw_import w); cbn [andb].
  2:{ exists [], (rng st). rewrite app_nil_r. destruct st; auto. }
  unfold ret at 1, call at 1, bind at 1, emit at 1. cbn [rng trace].
  destruct (pw_start w); cbn [andb].
  2:{ exists [EvPlaywrightStart], (rng st). auto. }
  unfold ret at 1.
  destruct (playwright_session_run u
              {| rng := rng st; trace := trace st ++ [EvPlaywrightStart] |})
    as (body & n & Run & B1 & B2 & B3).
  rewrite Run. cbn [rng trace].
  exists (EvPlaywrightStart :: body ++ [EvPlaywrightStop]), n.
  split; [|exists body; auto].
  unfold_monad. rewrite <- !app_assoc. cbn [app].
  destruct (session_document w u _) as [c|];
    destruct (pw_stop w); cbn [snd]; try reflexivity.
  destruct (BeautifulSoup c) as [soup|]; [|reflexivity].
  cbv zeta. destruct (PyFloat.opt_truthy _); reflexivity.
Qed.

(** When the manager is not entered, because the import or the entry
    raises, the browser is never launched and there is nothing to tear
    down. *)
Lemma playwright_not_entered (u s : string) (st : State) :
  pw_import w && pw_start w = false ->
  exists log n,
    scrape_with_playwright_async w u s st
    = (Ok None, {| rng := n; trace := trace st ++ log |}) /\
    occurrences EvLaunch log = 0%nat /\
    occurrences EvPlaywrightStop log = 0%nat.
Proof.
  intros E.
  destruct (scrape_with_playwright_async_run u s st)
    as (log & n & Run & Shape).
  unfold rendered_document in Run. rewrite E in *. cbn in Run.
  exists log, n. split; [exact Run|].
  destruct Shape as [-> | ->]; split; reflexivity.
Qed.

End Runs.

(* ================================================================== *)
(** * The orchestrator *)
(* ================================================================== *)

Section Orchestrator.

Context {Soup Tag : Type} {BS : BeautifulSoupAPI Soup Tag}.
Variable w : World.

Lemma strategy_chain_truthy (u s ua0 ua1 : string) (d : Extraction) :
  strategy_chain w u s ua0 ua1 = Some d ->
  PyFloat.opt_truthy (d_price d) = true.
Proof.
  unfold strategy_chain.
  destruct (extraction s u (bs4_document w u ua0)) as [d0|] eqn:L.
  - intros [= <-]. exact (extraction_truthy _ _ _ _ L).
  - apply extraction_truthy.
Qed.

Lemma strategy_chain_positive (u s ua0 ua1 : string) (d : Extraction) :
  strategy_chain w u s ua0 ua1 = Some d ->
  exists x, d_price d = Some x /\ PyFloat.gtb x PyFloat.zero = true.
Proof.
  unfold strategy_chain.
  destruct (extraction s u (bs4_document w u ua0)) as [d0|] eqn:L.
  - intros [= <-]. exact (extraction_positive _ _ _ _ L).
  - apply extraction_positive.
Qed.

(** Called with no event loop running, [scrape_product] always
    returns, and its result is the one assembled from what the two
    strategies report, the heavy strategy using the user agent drawn
    after the lightweight one's. *)
Lemma scrape_product_run (product : Product) (st : State) :
  exists log n,
    scrape_product w false product st
    = (Ok (pipeline_result product
             (strategy_chain w (p_url product) (resolved_store product)
                (user_agents w (rng st)) (user_agents w (S (rng st))))),
       {| rng := n; trace := trace st ++ log |}).
Proof.
  unfold scrape_product. cbv zeta. unfold bind at 1.
  rewrite scrape_with_bs4_run. unfold strategy_chain, pipeline_result.
  destruct (extraction _ _ (bs4_document _ _ _)) as [d|] eqn:L.
  - pose proof (extraction_truthy _ _ _ _ L) as T.
    cbn [has_price]. rewrite T. cbn [negb].
    unfold bind, ret. rewrite T. eexists. eexists. reflexivity.
  - cbn [has_price negb].
    unfold scrape_with_playwright, asyncio_run, bind at 1.
    destruct (scrape_with_playwright_async_run w (p_url product)
                (resolved_store product)
                {| rng := S (rng st);
                   trace := trace st ++
                     [EvHttpGet (p_url product) (user_agents w (rng st))
                                (TIMEOUT w)] |})
      as (log & n & Run & _).
    rewrite Run. cbn [rng trace].
    destruct (extraction _ _ (rendered_document _ _ _)) as [d|] eqn:H.
    + rewrite (extraction_truthy _ _ _ _ H). unfold ret.
      rewrite <- app_assoc. eexists. eexists. reflexivity.
    + unfold ret. rewrite <- app_assoc. eexists. eexists. reflexivity.
Qed.

(** Called from a running event loop, [scrape_product] returns the
    lightweight strategy's data when it reports a price; when it reports
    none, the [RuntimeError] of [asyncio.run] leaves [scrape_product]
    after the one request, with no Playwright call made. *)
Lemma scrape_product_in_event_loop (product : Product) (st : State) :
  scrape_product w true product st
  = (match extraction (resolved_store product) (p_url product)
             (bs4_document w (p_url product) (user_agents w (rng st))) with
     | Some d => Ok (pipeline_result product (Some d))
     | None => Raised
     end,
     {| rng := S (rng st);
        trace := trace st
                 ++ [EvHttpGet (p_url product) (user_agents w (rng st))
                               (TIMEOUT w)] |}).
Proof.
  unfold scrape_product. cbv zeta. unfold bind at 1.
  rewrite scrape_with_bs4_run. unfold pipeline_result.
  destruct (extraction _ _ (bs4_document _ _ _)) as [d|] eqn:L.
  - pose proof (extraction_truthy _ _ _ _ L) as T.
    cbn [has_price]. rewrite T. cbn [negb].
    unfold bind, ret. rewrite T. reflexivity.
  - cbn [has_price negb]. reflexivity.
Qed.

(** In the assembled result the price is missing exactly when the
    error is set. *)
Lemma pipeline_price_iff_error (product : Product) (u s ua0 ua1 : string) :
  let r := pipeline_result product (strategy_chain w u s ua0 ua1) in
  price r = None <-> exists e, error r = Some e /\ e <> "".
Proof.
  cbv zeta.
  destruct (strategy_chain _ _ _ _ _) as [d|] eqn:C; cbn.
  - apply strategy_chain_truthy in C.
    destruct (d_price d); [|discriminate].
    split; [discriminate | intros (e & H & _); discriminate].
  - split; [|reflexivity]. intros _. eexists. split; [reflexivity|discriminate].
Qed.

(** An assembled result without an error carries a price above zero. *)
Lemma pipeline_success_positive (product : Product) (u s ua0 ua1 : string) :
  let r := pipeline_result product (strategy_chain w u s ua0 ua1) in
  error r = None ->
  exists x, price r = Some x /\ PyFloat.gtb x PyFloat.zero = true.
Proof.
  cbv zeta.
  destruct (strategy_chain _ _ _ _ _) as [d|] eqn:C; cbn; [|discriminate].
  intros _. exact (strategy_chain_positive _ _ _ _ _ C).
Qed.

(** Whatever [scrape_product] returns, with or without a running event
    loop, is the result assembled from what the two strategies report. *)
Lemma scrape_product_returned (in_event_loop : bool) (product : Product)
      (st st' : State) (r : ScrapeResult) :
  scrape_product w in_event_loop product st = (Ok r, st') ->
  r = pipeline_result product
        (strategy_chain w (p_url product) (resolved_store product)
           (user_agents w (rng st)) (user_agents w (S (rng st)))).
Proof.
  destruct in_event_loop.
  - rewrite scrape_product_in_event_loop. unfold strategy_chain.
    destruct (extraction _ _ (bs4_document _ _ _)) as [d|];
      [|discriminate].
    intros [= <- _]. reflexivity.
  - destruct (scrape_product_run product st) as (log & n & Run).
    rewrite Run. intros [= <- _]. reflexivity.
Qed.

End Orchestrator.

(** Worlds in which the strategies obtain the same documents give the
    same chain of reports. *)
Lemma strategy_chain_same_documents
      {Soup Tag : Type} {BS : BeautifulSoupAPI Soup Tag}
      (w1 w2 : World) (u s a0 a1 b0 b1 : string) :
  (forall ua1 ua2, bs4_document w1 u ua1 = bs4_document w2 u ua2) ->
  (forall ua1 ua2, rendered_document w1 u ua1 = rendered_document w2 u ua2) ->
  strategy_chain w1 u s a0 a1 = strategy_chain w2 u s b0 b1.
Proof.
  intros L H. unfold strategy_chain.
  now rewrite (L a0 b0), (H a1 b1).
Qed.

Lemma occurrences_app (e : event) (a b : list event) :
  occurrences e (a ++ b) = (occurrences e a + occurrences e b)%nat.
Proof.
  unfold occurrences. rewrite List.filter_app, List.length_app. reflexivity.
Qed.

(* ================================================================== *)
(** * The pipeline: specified properties *)
(* ================================================================== *)

(** C2. In every result [scrape_product] returns, with or without a
    running event loop, the price is [None] if and only if the error is
    set to a non-empty text: no result has neither a price nor an error,
    or both. Called with no event loop running, it always returns such
    a result. *)
Theorem scrape_product_price_iff_error :
  forall (Soup Tag : Type) (BS : BeautifulSoupAPI Soup Tag)
         (w : World) (product : Product) (st : State),
  (exists r st',
    scrape_product w false product st = (Ok r, st') /\
    (price r = None <-> exists e, error r = Some e /\ e <> "")) /\
  (forall in_event_loop r st',
    scrape_product w in_event_loop product st = (Ok r, st') ->
    (price r = None <-> exists e, error r = Some e /\ e <> "")).
Proof.
  intros. split.
  - destruct (scrape_product_run w product st) as (log & n & Run).
    eexists. eexists. split; [exact Run|].
    apply pipeline_price_iff_error.
  - intros in_event_loop r st' Run.
    rewrite (scrape_product_returned w _ _ _ _ _ Run).
    apply pipeline_price_iff_error.
Qed.

(** C3, as amended. Called with no event loop running, when the
    lightweight strategy reports nothing (no document, or a document in
    which the parser finds no price other than zero) and the heavy
    strategy renders a document in which the store's parser finds a
    price that is not zero (one that passes the code's test
    [data["price"]]), [scrape_product] returns a success carrying the
    data extracted from the rendered document: its price, currency and
    stock flag, and its name when it has one (the input's name
    otherwise), with no error. *)
Theorem scrape_product_falls_back_to_playwright :
  forall (Soup Tag : Type) (BS : BeautifulSoupAPI Soup Tag)
         (w : World) (product : Product) (st : State)
         (html : string) (soup : Soup),
    let u := p_url product in
    let s := resolved_store product in
    let d := dict_get PARSERS s parse_generic soup u in
    extraction s u (bs4_document w u (user_agents w (rng st))) = None ->
    rendered_document w u (user_agents w (S (rng st))) = Some html ->
    BeautifulSoup html = Some soup ->
    PyFloat.opt_truthy (d_price d) = true ->
    exists st',
      scrape_product w false product st
      = (Ok {| product_id := p_id product;
               name := if PyStr.truthy (d_name d) then d_name d
                       else p_name product;
               url := u; store := s;
               price := d_price d; currency := d_currency d;
               in_stock := d_in_stock d; error := None |}, st').
Proof.
  intros Soup Tag BS w product st html soup u s d L R B T.
  destruct (scrape_product_run w product st) as (log & n & Run).
  eexists. rewrite Run. f_equal. f_equal.
  unfold strategy_chain. fold u s. rewrite L. unfold extraction.
  rewrite R, B. cbv zeta. fold d. rewrite T. reflexivity.
Qed.

(** C4. When neither strategy reports a price, [scrape_product] called
    with no event loop running returns a result without a price, with a
    non-empty error text, out of stock, and under the name given in the
    input; called from a running event loop, as the handlers of
    [telegram_bot.py] call it, it returns nothing: the [RuntimeError] of
    [asyncio.run] leaves it after the one request, whatever the browser
    would have found. *)
Theorem scrape_product_failure_raises_in_event_loop :
  forall (Soup Tag : Type) (BS : BeautifulSoupAPI Soup Tag)
         (w : World) (product : Product) (st : State),
    let u := p_url product in
    let s := resolved_store product in
    extraction s u (bs4_document w u (user_agents w (rng st))) = None ->
    extraction s u (rendered_document w u (user_agents w (S (rng st)))) = None ->
    (exists r st',
      scrape_product w false product st = (Ok r, st') /\
      price r = None /\
      (exists e, error r = Some e /\ e <> "") /\
      in_stock r = false /\
      name r = p_name product) /\
    scrape_product w true product st
    = (Raised,
       {| rng := S (rng st);
          trace := trace st
                   ++ [EvHttpGet u (user_agents w (rng st)) (TIMEOUT w)] |}).
Proof.
  intros Soup Tag BS w product st u s L H. split.
  - destruct (scrape_product_run w product st) as (log & n & Run).
    eexists. eexists. split; [exact Run|].
    unfold strategy_chain. fold u s. rewrite L, H. cbn.
    repeat split. eexists. split; [reflexivity|discriminate].
  - rewrite scrape_product_in_event_loop. fold u s. rewrite L. reflexivity.
Qed.

(** C7. Two runs of [scrape_product] on the same product whose strategies
    obtain the same documents return the same result, whatever user
    agents are drawn and whatever was done before: with no event loop
    running both runs return, and it is one result; and whenever two
    such runs return, with or without a running event loop, what they
    return is the same. *)
Theorem scrape_product_deterministic :
  forall (Soup Tag : Type) (BS : BeautifulSoupAPI Soup Tag)
         (w1 w2 : World) (product : Product) (st1 st2 : State),
    let u := p_url product in
    (forall ua1 ua2, bs4_document w1 u ua1 = bs4_document w2 u ua2) ->
    (forall ua1 ua2, rendered_document w1 u ua1 = rendered_document w2 u ua2) ->
    (exists r st1' st2',
      scrape_product w1 false product st1 = (Ok r, st1') /\
      scrape_product w2 false product st2 = (Ok r, st2')) /\
    (forall loop1 loop2 r1 r2 st1' st2',
      scrape_product w1 loop1 product st1 = (Ok r1, st1') ->
      scrape_product w2 loop2 product st2 = (Ok r2, st2') ->
      r1 = r2).
Proof.
  intros Soup Tag BS w1 w2 product st1 st2 u L H.
  pose proof (strategy_chain_same_documents w1 w2 u (resolved_store product)
                (user_agents w1 (rng st1)) (user_agents w1 (S (rng st1)))
                (user_agents w2 (rng st2)) (user_agents w2 (S (rng st2)))
                L H) as Same.
  split.
  - destruct (scrape_product_run w1 product st1) as (log1 & n1 & Run1).
    destruct (scrape_product_run w2 product st2) as (log2 & n2 & Run2).
    eexists. eexists. eexists. split; [exact Run1|].
    rewrite Run2. fold u. rewrite Same. reflexivity.
  - intros loop1 loop2 r1 r2 st1' st2' Run1 Run2.
    rewrite (scrape_product_returned w1 _ _ _ _ _ Run1).
    rewrite (scrape_product_returned w2 _ _ _ _ _ Run2).
    fold u. rewrite Same. reflexivity.
Qed.

(** C8. Once [async with async_playwright()] has been entered, a call of
    the heavy strategy returns normally and its calls to the backend are
    the entry, the calls of the body and the exit of the manager: the
    exit, which tears the session down, happens exactly once and is the
    last call made, on every path, whichever call raises; the browser is
    closed by the body at most once. *)
Theorem playwright_session_torn_down_once :
  forall (Soup Tag : Type) (BS : BeautifulSoupAPI Soup Tag)
         (w : World) (u s : string) (st : State),
    pw_import w = true -> pw_start w = true ->
    exists r body st',
      scrape_with_playwright_async w u s st = (Ok r, st') /\
      trace st'
      = (trace st ++ EvPlaywrightStart :: body ++ [EvPlaywrightStop])%list /\
      occurrences EvPlaywrightStop
        (EvPlaywrightStart :: body ++ [EvPlaywrightStop])%list = 1%nat /\
      (occurrences EvBrowserClose body <= 1)%nat.
Proof.
  intros Soup Tag BS w u s st I S.
  destruct (scrape_with_playwright_async_run w u s st)
    as (log & n & Run & Shape).
  rewrite I, S in Shape. destruct Shape as (body & -> & B1 & B2 & B3).
  eexists. exists body. eexists. split; [exact Run|].
  split; [reflexivity|]. split; [|exact B3].
  change (EvPlaywrightStart :: body ++ [EvPlaywrightStop])%list
    with ([EvPlaywrightStart] ++ body ++ [EvPlaywrightStop])%list.
  rewrite !occurrences_app, B2. reflexivity.
Qed.

(** C9. Every result without an error carries a price greater than
    zero: the one [scrape_product] always returns when no event loop is
    running, and any it returns from a running event loop. Both
    strategies report data only with such a price, so a page whose price
    reads as zero is a failure of both strategies. *)
Theorem scrape_product_success_price_positive :
  (forall (Soup Tag : Type) (BS : BeautifulSoupAPI Soup Tag)
          (w : World) (product : Product) (st : State),
      (exists r st',
          scrape_product w false product st = (Ok r, st') /\
          (error r = None ->
           exists x, price r = Some x /\ PyFloat.gtb x PyFloat.zero = true)) /\
      (forall in_event_loop r st',
          scrape_product w in_event_loop product st = (Ok r, st') ->
          error r = None ->
          exists x, price r = Some x /\ PyFloat.gtb x PyFloat.zero = true) /\
      (forall in_event_loop u s d,
          fst (scrape_with_bs4 w u s st) = Ok (Some d) \/
          fst (scrape_with_playwright w in_event_loop u s st) = Ok (Some d) ->
          exists x, d_price d = Some x /\ PyFloat.gtb x PyFloat.zero = true)) /\
  fst (scrape_product (BS := Flat.api) zero_price_world false sample_product
                      start_state)
  = Ok (pipeline_result sample_product None).
Proof.
  split; [|vm_compute; reflexivity].
  intros. split; [|split].
  - destruct (scrape_product_run w product st) as (log & n & Run).
    eexists. eexists. split; [exact Run|].
    apply pipeline_success_positive.
  - intros in_event_loop r st' Run.
    rewrite (scrape_product_returned w _ _ _ _ _ Run).
    apply pipeline_success_positive.
  - intros in_event_loop u s d [H|H].
    + rewrite scrape_with_bs4_run in H. cbn in H. injection H as H.
      exact (extraction_positive _ _ _ _ H).
    + unfold scrape_with_playwright, asyncio_run in H.
      destruct in_event_loop; [discriminate|].
      destruct (scrape_with_playwright_async_run w u s st)
        as (log & n & Run & _).
      rewrite Run in H. cbn in H. injection H as H.
      exact (extraction_positive _ _ _ _ H).
Qed.

(* ================================================================== *)
(** * Example runs *)
(* ================================================================== *)

(** The refused request falls back to the rendered page, whose data the
    result carries. *)
Lemma scrape_product_falls_back_to_playwright_witness :
  exists st',
    scrape_product (BS := Flat.api) (rendered_world (fun _ => "Mozilla/5.0"))
                   false sample_product start_state
    = (Ok {| product_id := 7; name := "Teclado K552";
             url := "https://www.hardgamers.com.ar/p/teclado";
             store := "hardgamers";
             price := Some (S754_finite false 6322123140235264 (-37));
             currency := "ARS"; in_stock := false; error := None |}, st').
Proof.
  exact (scrape_product_falls_back_to_playwright
           (list Flat.element) Flat.element Flat.api
           (rendered_world (fun _ => "Mozilla/5.0")) sample_product start_state
           "<h1 class='product-title'>Teclado K552</h1><span class='price'>$ 45.999,50</span><p>Sin stock</p>"
           (Flat.parse "<h1 class='product-title'>Teclado K552</h1><span class='price'>$ 45.999,50</span><p>Sin stock</p>")
           eq_refl eq_refl eq_refl eq_refl).
Defined.

(** A rendered page whose price reads as zero: the lightweight strategy
    obtains no document, the heavy one a document in which the store's
    parser finds the price [0.0], and the result is the failure, with
    no event loop running. *)
Lemma scrape_product_zero_price_is_failure :
  bs4_document zero_render_world "https://www.hardgamers.com.ar/p/teclado"
               "Mozilla/5.0" = None /\
  rendered_document zero_render_world
                    "https://www.hardgamers.com.ar/p/teclado" "Mozilla/5.0"
  = Some "<h1>Cable HDMI</h1><span class='price'>$ 0,00</span>" /\
  option_map
    (fun soup =>
       dict_get (PARSERS (BS := Flat.api)) "hardgamers"
                (parse_generic (BS := Flat.api)) soup
                "https://www.hardgamers.com.ar/p/teclado")
    (BeautifulSoup (BeautifulSoupAPI := Flat.api)
       "<h1>Cable HDMI</h1><span class='price'>$ 0,00</span>")
  = Some {| d_price := Some PyFloat.zero; d_currency := "ARS";
            d_in_stock := true; d_name := "Cable HDMI" |} /\
  fst (scrape_product (BS := Flat.api) zero_render_world false sample_product
                      start_state)
  = Ok {| product_id := 7; name := "Teclado mecanico";
          url := "https://www.hardgamers.com.ar/p/teclado";
          store := "hardgamers"; price := None; currency := "ARS";
          in_stock := false;
          error := Some "No se pudo extraer el precio con BS4 ni Playwright." |}.
Proof. vm_compute. repeat split. Qed.

(** The product [cmd_agregar] builds for a URL, without network and
    with a navigation that times out: the command-line call returns the
    failure, the bot's call raises after its one request. *)
Lemma scrape_product_failure_raises_in_event_loop_witness :
  (exists r st',
    scrape_product (BS := Flat.api) offline_world false
                   (bot_product "https://www.fravega.com/p/mouse") start_state
    = (Ok r, st') /\
    price r = None /\
    (exists e, error r = Some e /\ e <> "") /\
    in_stock r = false /\
    name r = "Nuevo producto") /\
  scrape_product (BS := Flat.api) offline_world true
                 (bot_product "https://www.fravega.com/p/mouse") start_state
  = (Raised,
     {| rng := 1;
        trace := [EvHttpGet "https://www.fravega.com/p/mouse"
                            "Mozilla/5.0 A" 15] |}).
Proof.
  exact (scrape_product_failure_raises_in_event_loop
           (list Flat.element) Flat.element Flat.api
           offline_world (bot_product "https://www.fravega.com/p/mouse")
           start_state eq_refl eq_refl).
Defined.

(** Two runs that differ in their user agents and in their past. *)
Lemma scrape_product_deterministic_witness :
  (exists r st1' st2',
    scrape_product (BS := Flat.api) (rendered_world (fun _ => "Mozilla/5.0"))
                   false sample_product start_state = (Ok r, st1') /\
    scrape_product (BS := Flat.api) (rendered_world (fun _ => "Opera/9.80"))
                   false sample_product {| rng := 5; trace := [EvLaunch] |}
    = (Ok r, st2')) /\
  (forall loop1 loop2 r1 r2 st1' st2',
    scrape_product (BS := Flat.api) (rendered_world (fun _ => "Mozilla/5.0"))
                   loop1 sample_product start_state = (Ok r1, st1') ->
    scrape_product (BS := Flat.api) (rendered_world (fun _ => "Opera/9.80"))
                   loop2 sample_product {| rng := 5; trace := [EvLaunch] |}
    = (Ok r2, st2') ->
    r1 = r2).
Proof.
  exact (scrape_product_deterministic
           (list Flat.element) Flat.element Flat.api
           (rendered_world (fun _ => "Mozilla/5.0"))
           (rendered_world (fun _ => "Opera/9.80"))
           sample_product start_state {| rng := 5; trace := [EvLaunch] |}
           (fun _ _ => eq_refl) (fun _ _ => eq_refl)).
Defined.

(** A navigation that raises: the manager is still left, once and
    last, and the browser is not closed by the body. *)
Lemma playwright_session_torn_down_once_witness :
  exists r body st',
    scrape_with_playwright_async (BS := Flat.api) offline_world
      "https://www.hardgamers.com.ar/p/teclado" "hardgamers" start_state
    = (Ok r, st') /\
    trace st' = ([] ++ EvPlaywrightStart :: body ++ [EvPlaywrightStop])%list /\
    occurrences EvPlaywrightStop
      (EvPlaywrightStart :: body ++ [EvPlaywrightStop])%list = 1%nat /\
    (occurrences EvBrowserClose body <= 1)%nat.
Proof.
  exact (playwright_session_torn_down_once
           (list Flat.element) Flat.element Flat.api offline_world
           "https://www.hardgamers.com.ar/p/teclado" "hardgamers" start_state
           eq_refl eq_refl).
Defined.

(** The run behind the last example, in full. *)
Lemma navigation_timeout_run :
  scrape_with_playwright_async (BS := Flat.api) offline_world
    "https://www.hardgamers.com.ar/p/teclado" "hardgamers" start_state
  = (Ok None,
     {| rng := 1;
        trace := [EvPlaywrightStart; EvLaunch; EvNewContext "Mozilla/5.0 A";
                  EvNewPage; EvRoute;
                  EvGoto "https://www.hardgamers.com.ar/p/teclado" 15000;
                  EvPlaywrightStop] |}).
Proof. vm_compute. reflexivity. Qed.

(* ================================================================== *)
(** * Further properties of the price normaliser *)
(* ================================================================== *)

Lemma filter_idempotent (f : ascii -> bool) (s : string) :
  PyStr.filter f (PyStr.filter f s) = PyStr.filter f s.
Proof.
  induction s as [|c s IH]; cbn [PyStr.filter]; [reflexivity|].
  destruct (f c) eqn:F; [|exact IH].
  cbn [PyStr.filter]. now rewrite F, IH.
Qed.

(** The value is [float] of the normalised price characters, the empty
    text included. *)
Lemma parse_price_text_kept (text : string) :
  parse_price_text text
  = PyFloat.of_string (normalize_separators (keep_price_chars text)).
Proof.
  unfold parse_price_text. destruct text as [|c text]; [reflexivity|].
  cbn [PyStr.truthy negb]. now rewrite keep_price_chars_strip.
Qed.

(** X1. The value depends only on the digits, commas and periods of the
    text: currency symbols, letters, signs and white space around or
    between them change nothing. *)
Theorem parse_price_text_price_chars_only (t1 t2 : string) :
  keep_price_chars t1 = keep_price_chars t2 ->
  parse_price_text t1 = parse_price_text t2.
Proof.
  intros H. rewrite !parse_price_text_kept. now rewrite H.
Qed.

Lemma parse_price_text_price_chars_only_witness :
  parse_price_text "$ 1.299,50" = parse_price_text "ARS -1.299,50 c/u".
Proof.
  apply (parse_price_text_price_chars_only "$ 1.299,50" "ARS -1.299,50 c/u").
  reflexivity.
Defined.

Lemma digit_free_all_digits (s : string) :
  is_digit_free s = true -> PyFloat.all_digits s = true -> s = "".
Proof.
  destruct s as [|c s]; [reflexivity|].
  unfold is_digit_free. cbn [every_char PyFloat.all_digits].
  destruct (PyStr.is_digit c); discriminate.
Qed.

Lemma digit_free_split_dot (s : string) :
  is_digit_free s = true ->
  is_digit_free (fst (PyFloat.split_dot s)) = true /\
  match snd (PyFloat.split_dot s) with
  | Some fp => is_digit_free fp = true
  | None => True
  end.
Proof.
  unfold is_digit_free.
  induction s as [|c s IH]; cbn [PyFloat.split_dot every_char];
    [intros _; split; [reflexivity|exact I]|].
  intros H. apply andb_prop in H. destruct H as [H1 H2].
  destruct (Ascii.eqb c "."); cbn [fst snd]; [split; [reflexivity|exact H2]|].
  destruct (IH H2) as [I1 I2].
  destruct (PyFloat.split_dot s) as [a b]. cbn [fst snd] in *.
  cbn [every_char]. now rewrite H1, I1.
Qed.

Lemma of_string_digit_free (s : string) :
  is_digit_free s = true -> PyFloat.of_string s = None.
Proof.
  intros H. destruct (digit_free_split_dot s H) as [H1 H2].
  unfold PyFloat.of_string.
  destruct (PyFloat.split_dot s) as [ip [fp|]]; cbn [fst snd] in *.
  - destruct (PyFloat.all_digits ip) eqn:A; [|reflexivity].
    destruct (PyFloat.all_digits fp) eqn:B; [|reflexivity].
    rewrite (digit_free_all_digits ip H1 A), (digit_free_all_digits fp H2 B).
    reflexivity.
  - destruct (PyFloat.all_digits ip) eqn:A; [|now rewrite andb_false_r].
    rewrite (digit_free_all_digits ip H1 A). reflexivity.
Qed.

Lemma digit_free_normalized (s : string) :
  is_digit_free s = true ->
  is_digit_free (normalize_separators (keep_price_chars s)) = true.
Proof.
  unfold is_digit_free. intros H.
  assert (every_char (fun c => negb (PyStr.is_digit c)) (keep_price_chars s)
          = true) as K.
  { revert H. apply every_char_filter_of. auto. }
  assert (forall a, every_char (fun c => negb (PyStr.is_digit c))
                      (PyStr.remove a (keep_price_chars s)) = true) as R.
  { intros a. revert K. apply every_char_filter_of. auto. }
  assert (forall x, every_char (fun c => negb (PyStr.is_digit c)) x = true ->
                    every_char (fun c => negb (PyStr.is_digit c))
                      (PyStr.replace "," "." x) = true) as M.
  { intros x. apply every_char_map. intros c Hc.
    destruct (Ascii.eqb c ","); [reflexivity | exact Hc]. }
  unfold normalize_separators.
  repeat match goal with
         | |- context [if ?b then _ else _] => destruct b
         end; auto using every_char_remove_n.
Qed.

(** X2. A text without any digit has no value. *)
Theorem parse_price_text_needs_digit (text : string) :
  is_digit_free text = true -> parse_price_text text = None.
Proof.
  intros H. rewrite parse_price_text_kept.
  apply of_string_digit_free, digit_free_normalized, H.
Qed.

Lemma parse_price_text_needs_digit_witness :
  parse_price_text "Consultar precio (sin IVA)." = None.
Proof.
  apply (parse_price_text_needs_digit "Consultar precio (sin IVA).").
  reflexivity.
Defined.

Lemma remove_absent (a : ascii) (s : string) :
  PyStr.has_char a s = false -> PyStr.remove a s = s.
Proof.
  unfold PyStr.remove.
  induction s as [|c s IH]; cbn [PyStr.has_char PyStr.filter]; [reflexivity|].
  intros H. apply orb_false_elim in H. destruct H as [E H].
  rewrite E. cbn [negb]. now rewrite IH.
Qed.

Lemma last_separator_occurs (s : string) (d : ascii) :
  last_separator s = Some d -> PyStr.has_char d s = true.
Proof.
  induction s as [|c s IH]; cbn [last_separator PyStr.has_char];
    [discriminate|].
  destruct (last_separator s) as [d'|].
  - intros [= <-]. rewrite IH by reflexivity. apply orb_true_r.
  - destruct (is_separator c); [|discriminate].
    intros [= <-]. now rewrite Ascii.eqb_refl.
Qed.

(** With a comma in the text, the value is [float] of the text read with
    its last separator as the decimal point. *)
Lemma parse_price_text_with_comma (text : string) (dec : ascii) :
  PyStr.has_char "," text = true -> last_separator text = Some dec ->
  parse_price_text text = PyFloat.of_string (with_decimal_point dec text).
Proof.
  intros Hc Hd. rewrite parse_price_text_kept. unfold normalize_separators.
  rewrite has_comma_kept, has_period_kept, Hc. cbn [andb].
  destruct (PyStr.has_char "." text) eqn:Hp.
  - pose proof (rfind_from_last_separator (keep_price_chars text) 0 (-1) (-1)
                  ltac:(lia) ltac:(lia)) as R.
    rewrite last_separator_kept, Hd in R. unfold PyStr.rfind.
    destruct (last_separator_is_separator _ _ Hd) as [-> | ->];
      cbn [Ascii.eqb Bool.eqb] in R.
    + replace (_ >? _) with true by (symmetry; apply Z.gtb_lt; exact R).
      now rewrite with_decimal_point_comma.
    + replace (_ >? _) with false
        by (symmetry; rewrite Z.gtb_ltb; apply Z.ltb_ge; lia).
      now rewrite with_decimal_point_period.
  - destruct (last_separator_is_separator _ _ Hd) as [-> | ->].
    + rewrite <- with_decimal_point_comma.
      rewrite remove_absent by (now rewrite has_period_kept).
      reflexivity.
    + apply last_separator_occurs in Hd. congruence.
Qed.

Lemma count_with_decimal_point (dec : ascii) (s : string) :
  is_separator dec = true ->
  PyStr.count "." (with_decimal_point dec s) = PyStr.count dec s.
Proof.
  intros Hs.
  induction s as [|c s IH]; cbn [with_decimal_point PyStr.count];
    [reflexivity|].
  destruct (PyStr.is_digit c) eqn:D.
  - pose proof (digit_not_separator c D) as N.
    cbn [PyStr.count]. rewrite IH.
    replace (Ascii.eqb c dec) with false.
    + replace (Ascii.eqb c ".") with false; [reflexivity|].
      symmetry. unfold is_separator in N.
      apply orb_false_elim in N. tauto.
    + symmetry. apply Ascii.eqb_neq. intros ->. congruence.
  - destruct (Ascii.eqb c dec); cbn [PyStr.count]; rewrite IH; reflexivity.
Qed.

Lemma split_dot_count (s : string) :
  PyStr.count "." s
  = match snd (PyFloat.split_dot s) with
    | Some fp => 1 + PyStr.count "." fp
    | None => 0
    end.
Proof.
  induction s as [|c s IH]; cbn [PyFloat.split_dot PyStr.count];
    [reflexivity|].
  destruct (Ascii.eqb c "."); cbn [snd]; [reflexivity|].
  rewrite IH. destruct (PyFloat.split_dot s) as [a b]. reflexivity.
Qed.

Lemma all_digits_no_period (s : string) :
  PyFloat.all_digits s = true -> PyStr.count "." s = 0.
Proof.
  induction s as [|c s IH]; cbn [PyFloat.all_digits PyStr.count];
    [reflexivity|].
  intros H. apply andb_prop in H. destruct H as [D H].
  pose proof (digit_not_separator c D) as N. unfold is_separator in N.
  apply orb_false_elim in N. destruct N as [_ N]. rewrite N, IH by exact H.
  reflexivity.
Qed.

Lemma of_string_two_periods (s : string) :
  2 <= PyStr.count "." s -> PyFloat.of_string s = None.
Proof.
  intros H. rewrite split_dot_count in H. unfold PyFloat.of_string.
  destruct (PyFloat.split_dot s) as [ip [fp|]]; cbn [snd] in H; [|lia].
  destruct (PyFloat.all_digits fp) eqn:A.
  - apply all_digits_no_period in A. lia.
  - now rewrite andb_false_r.
Qed.

(** X3. When the text holds a comma and its last separator occurs more
    than once, it has no value: a number grouped with commas only, or
    with two decimal commas, is not read. *)
Theorem parse_price_text_repeated_decimal_separator
        (text : string) (dec : ascii) :
  PyStr.has_char "," text = true ->
  last_separator text = Some dec ->
  2 <= PyStr.count dec text ->
  parse_price_text text = None.
Proof.
  intros Hc Hd Hn.
  rewrite (parse_price_text_with_comma text dec Hc Hd).
  apply of_string_two_periods.
  rewrite count_with_decimal_point; [exact Hn|].
  unfold is_separator.
  destruct (last_separator_is_separator _ _ Hd) as [-> | ->]; reflexivity.
Qed.

Lemma parse_price_text_repeated_decimal_separator_witness :
  parse_price_text "US$ 1,234,567" = None.
Proof.
  apply (parse_price_text_repeated_decimal_separator "US$ 1,234,567" ",");
    [reflexivity | reflexivity | vm_compute; discriminate].
Defined.

(** X4. A value is never negative and never a NaN: it is zero, or
    greater than zero (plus infinity included); a minus sign in the text
    is dropped. *)
Theorem parse_price_text_never_negative (text : string) (x : float) :
  parse_price_text text = Some x ->
  nonnegative x = true /\
  (x = PyFloat.zero \/ PyFloat.gtb x PyFloat.zero = true).
Proof.
  intros H. pose proof (parse_price_text_nonnegative text x H) as N.
  split; [exact N|].
  destruct x as [s|s| |s m e]; try destruct s; try discriminate; auto.
Qed.

Lemma parse_price_text_never_negative_witness :
  nonnegative (S754_finite false 7036874417766400 (-47)) = true /\
  (S754_finite false 7036874417766400 (-47) = PyFloat.zero \/
   PyFloat.gtb (S754_finite false 7036874417766400 (-47)) PyFloat.zero = true).
Proof.
  apply (parse_price_text_never_negative "-50 ARS"). vm_compute. reflexivity.
Defined.

(* ================================================================== *)
(** * Further properties of the strategies and the orchestrator *)
(* ================================================================== *)

Lemma http_gets_app (a b : list event) :
  List.filter is_http_get (a ++ b)
  = (List.filter is_http_get a ++ List.filter is_http_get b)%list.
Proof. apply List.filter_app. Qed.

Section Calls.

Context {Soup Tag : Type} {BS : BeautifulSoupAPI Soup Tag}.
Variable w : World.

(** The calls of the session body: one launch, no request, at most one
    user agent drawn, and [browser.close()] exactly when the page
    content was obtained. *)
Lemma playwright_session_calls (u : string) (st : State) :
  exists body n,
    playwright_session w u st
    = (match session_document w u (user_agents w (rng st)) with
       | Some c => Ok c
       | None => Raised
       end,
       {| rng := n; trace := trace st ++ body |}) /\
    (rng st <= n <= S (rng st))%nat /\
    List.filter is_http_get body = [] /\
    occurrences EvLaunch body = 1%nat /\
    occurrences EvPlaywrightStart body = 0%nat /\
    occurrences EvBrowserClose body
    = if content_reached w u (user_agents w (rng st)) then 1%nat else 0%nat.
Proof.
  unfold playwright_session, session_document, content_reached.
  unfold_monad.
  destruct (pw_launch w); cbn [andb rng trace];
    [destruct (pw_new_context w (user_agents w (rng st)));
     cbn [andb rng trace];
     [destruct (pw_new_page w); cbn [andb rng trace];
      [destruct (pw_route w); cbn [andb rng trace];
       [destruct (pw_goto w u (TIMEOUT w * 1000)); cbn [andb rng trace];
        [destruct (pw_wait_for_timeout w 2000); cbn [andb rng trace];
         [destruct (pw_content w); cbn [andb rng trace];
          [destruct (pw_close w); cbn [andb rng trace]|]|]|]|]|]|]|];
    rewrite <- ?app_assoc; cbn [app];
    eexists; eexists;
    (split; [reflexivity | cbn; repeat split; lia]).
Qed.

Lemma scrape_with_playwright_async_calls (u s : string) (st : State) :
  exists log n,
    scrape_with_playwright_async w u s st
    = (Ok (extraction s u
             (rendered_document w u (user_agents w (rng st)))),
       {| rng := n; trace := trace st ++ log |}) /\
    (rng st <= n <= S (rng st))%nat /\
    List.filter is_http_get log = [] /\
    (occurrences EvLaunch log <= 1)%nat /\
    (occurrences EvPlaywrightStart log <= 1)%nat /\
    occurrences EvBrowserClose log
    = if pw_import w && pw_start w
         && content_reached w u (user_agents w (rng st))
      then 1%nat else 0%nat.
Proof.
  unfold scrape_with_playwright_async, rendered_document, extraction.
  unfold try_except, async_with, bind at 1 2 3.
  destruct (pw_import w); cbn [andb].
  2:{ exists [], (rng st). rewrite app_nil_r. destruct st.
      cbn. repeat split; lia. }
  unfold ret at 1, call at 1, bind at 1, emit at 1. cbn [rng trace].
  destruct (pw_start w); cbn [andb].
  2:{ exists [EvPlaywrightStart], (rng st). cbn. repeat split; lia. }
  unfold ret at 1.
  destruct (playwright_session_calls u
              {| rng := rng st; trace := trace st ++ [EvPlaywrightStart] |})
    as (body & n & Run & B0 & B1 & B2 & B3 & B4).
  rewrite Run. cbn [rng trace] in *.
  exists (EvPlaywrightStart :: body ++ [EvPlaywrightStop]), n.
  split.
  - unfold_monad. rewrite <- !app_assoc. cbn [app].
    destruct (session_document w u _) as [c|];
      destruct (pw_stop w); cbn [snd]; try reflexivity.
    destruct (BeautifulSoup c) as [soup|]; [|reflexivity].
    cbv zeta. destruct (PyFloat.opt_truthy _); reflexivity.
  - change (EvPlaywrightStart :: body ++ [EvPlaywrightStop])%list
      with ([EvPlaywrightStart] ++ body ++ [EvPlaywrightStop])%list.
    rewrite !http_gets_app, !occurrences_app, B1, B2, B3, B4.
    cbn. repeat split; try lia;
      destruct (content_reached w u _); reflexivity.
Qed.

(** The run of [scrape_product] with its calls, with no event loop
    running: one request, then the calls of the heavy strategy when the
    lightweight one reports nothing. *)
Lemma scrape_product_calls (product : Product) (st : State) :
  exists log n,
    scrape_product w false product st
    = (Ok (pipeline_result product
             (strategy_chain w (p_url product) (resolved_store product)
                (user_agents w (rng st)) (user_agents w (S (rng st))))),
       {| rng := n; trace := trace st ++ log |}) /\
    (S (rng st) <= n <= S (S (rng st)))%nat /\
    List.filter is_http_get log
    = [EvHttpGet (p_url product) (user_agents w (rng st)) (TIMEOUT w)] /\
    (occurrences EvLaunch log <= 1)%nat /\
    (occurrences EvPlaywrightStart log <= 1)%nat /\
    (extraction (resolved_store product) (p_url product)
       (bs4_document w (p_url product) (user_agents w (rng st))) <> None ->
     log = [EvHttpGet (p_url product) (user_agents w (rng st)) (TIMEOUT w)]).
Proof.
  unfold scrape_product. cbv zeta. unfold bind at 1.
  rewrite scrape_with_bs4_run. unfold strategy_chain, pipeline_result.
  destruct (extraction _ _ (bs4_document _ _ _)) as [d|] eqn:L.
  - pose proof (extraction_truthy _ _ _ _ L) as T.
    cbn [has_price]. rewrite T. cbn [negb].
    unfold bind, ret. rewrite T. eexists. eexists.
    split; [reflexivity|]. cbn. repeat split; lia.
  - cbn [has_price negb].
    unfold scrape_with_playwright, asyncio_run, bind at 1.
    destruct (scrape_with_playwright_async_calls (p_url product)
                (resolved_store product)
                {| rng := S (rng st);
                   trace := trace st ++
                     [EvHttpGet (p_url product) (user_agents w (rng st))
                                (TIMEOUT w)] |})
      as (log & n & Run & C0 & C1 & C2 & C3 & _).
    rewrite Run. cbn [rng trace] in *.
    exists ([EvHttpGet (p_url product) (user_agents w (rng st)) (TIMEOUT w)]
              ++ log)%list, n.
    split.
    + destruct (extraction _ _ (rendered_document _ _ _)) as [d|] eqn:H.
      * rewrite (extraction_truthy _ _ _ _ H). unfold ret.
        rewrite <- app_assoc. reflexivity.
      * unfold ret. rewrite <- app_assoc. reflexivity.
    + rewrite http_gets_app, !occurrences_app, C1. cbn.
      repeat split; try lia. intros N. now destruct N.
Qed.

(** The calls of [scrape_product] with or without a running event loop,
    whether it returns or raises: one request, at most one start and
    one launch of the browser, at most two user agents drawn. *)
Lemma scrape_product_call_counts (in_event_loop : bool) (product : Product)
      (st : State) :
  exists out log n,
    scrape_product w in_event_loop product st
    = (out, {| rng := n; trace := trace st ++ log |}) /\
    List.length (List.filter is_http_get log) = 1%nat /\
    (occurrences EvPlaywrightStart log <= 1)%nat /\
    (occurrences EvLaunch log <= 1)%nat /\
    (n <= rng st + 2)%nat.
Proof.
  destruct in_event_loop.
  - rewrite scrape_product_in_event_loop.
    eexists. eexists. eexists. split; [reflexivity|].
    cbn. repeat split; lia.
  - destruct (scrape_product_calls product st)
      as (log & n & Run & Rn & H1 & H2 & H3 & _).
    eexists. exists log, n. split; [exact Run|].
    rewrite H1. cbn. repeat split; lia.
Qed.

Lemma extraction_parsed (s u : string) (doc : option string) (d : Extraction) :
  extraction s u doc = Some d ->
  exists soup, d = dict_get PARSERS s parse_generic soup u.
Proof.
  unfold extraction. destruct doc as [text|]; [|discriminate].
  destruct (BeautifulSoup text) as [soup|]; [|discriminate].
  destruct (PyFloat.opt_truthy _); [|discriminate].
  intros [= <-]. now exists soup.
Qed.

Lemma strategy_chain_parsed (u s ua0 ua1 : string) (d : Extraction) :
  strategy_chain w u s ua0 ua1 = Some d ->
  exists soup, d = dict_get PARSERS s parse_generic soup u.
Proof.
  unfold strategy_chain.
  destruct (extraction s u (bs4_document w u ua0)) as [d0|] eqn:L.
  - intros [= <-]. exact (extraction_parsed _ _ _ _ L).
  - apply extraction_parsed.
Qed.

End Calls.

Section Currencies.

Context {Soup Tag : Type} {BS : BeautifulSoupAPI Soup Tag}.

Lemma generic_price_loop_currency (tags : list Tag) (r : Extraction) :
  d_currency (generic_price_loop tags r) = d_currency r.
Proof.
  induction tags as [|t tags IH]; cbn [generic_price_loop]; [reflexivity|].
  destruct (parse_price_text (get_text t)) as [p|]; [|exact IH].
  destruct (PyFloat.truthy p && PyFloat.gtb p PyFloat.zero);
    [reflexivity | exact IH].
Qed.

Lemma amazon_price_loop_currency (soup : Soup)
      (selectors : list (string * list (string * matcher))) :
  forall r, d_currency (amazon_price_loop soup selectors r) = d_currency r.
Proof.
  induction selectors as [|[tag attrs] rest IH]; intros r;
    cbn [amazon_price_loop]; [reflexivity|].
  destruct (find soup (Some tag) attrs) as [t|]; [|apply IH].
  destruct (PyFloat.opt_truthy _); [reflexivity|].
  rewrite IH. reflexivity.
Qed.

Lemma parse_mercadolibre_currency (soup : Soup) (u : string) :
  d_currency (parse_mercadolibre soup u) = "ARS".
Proof. unfold parse_mercadolibre. split_branches; reflexivity. Qed.

Lemma parse_hardgamers_currency (soup : Soup) (u : string) :
  d_currency (parse_hardgamers soup u) = "ARS".
Proof. unfold parse_hardgamers. split_branches; reflexivity. Qed.

Lemma parse_generic_currency (soup : Soup) (u : string) :
  d_currency (parse_generic soup u) = "ARS".
Proof.
  unfold parse_generic.
  destruct (find soup (Some "meta") [("property", Lit "product:price:amount")]);
    rewrite ?generic_price_loop_currency; split_branches; reflexivity.
Qed.

Lemma parse_amazon_currency (soup : Soup) (u : string) :
  d_currency (parse_amazon soup u) = "USD" \/
  d_currency (parse_amazon soup u) = "EUR".
Proof.
  unfold parse_amazon.
  set (r := amazon_price_loop soup price_selectors _).
  assert (d_currency r = "USD") as Hr.
  { subst r. rewrite amazon_price_loop_currency.
    destruct (find soup (Some "span") [("id", Lit "productTitle")]);
      reflexivity. }
  clearbody r.
  split_branches; cbn; auto.
Qed.

Lemma registry_currency (s : string) (soup : Soup) (u : string) :
  let c := d_currency (dict_get PARSERS s parse_generic soup u) in
  (c = "ARS" \/ c = "USD" \/ c = "EUR") /\ (s <> "amazon" -> c = "ARS").
Proof.
  unfold PARSERS. cbn [dict_get].
  destruct (String.eqb "mercadolibre" s);
    [rewrite parse_mercadolibre_currency; auto|].
  destruct (String.eqb "amazon" s) eqn:A.
  - apply String.eqb_eq in A. subst s.
    destruct (parse_amazon_currency soup u) as [-> | ->];
      (split; [auto | congruence]).
  - destruct (String.eqb "hardgamers" s);
      [rewrite parse_hardgamers_currency; auto|].
    repeat match goal with
           | |- context [if ?b then _ else _] => destruct b
           end; cbv zeta; rewrite parse_generic_currency; auto.
Qed.

End Currencies.

(** X5. When the lightweight strategy finds a price, [scrape_product]
    returns its data after a single request: the browser is never
    started and one user agent is drawn, with or without a running
    event loop. *)
Theorem scrape_product_lightweight_short_circuit :
  forall (Soup Tag : Type) (BS : BeautifulSoupAPI Soup Tag)
         (w : World) (in_event_loop : bool) (product : Product) (st : State)
         (d : Extraction),
    let u := p_url product in
    let ua := user_agents w (rng st) in
    extraction (resolved_store product) u (bs4_document w u ua) = Some d ->
    scrape_product w in_event_loop product st
    = (Ok (pipeline_result product (Some d)),
       {| rng := S (rng st);
          trace := trace st ++ [EvHttpGet u ua (TIMEOUT w)] |}).
Proof.
  intros Soup Tag BS w in_event_loop product st d u ua L.
  pose proof (extraction_truthy _ _ _ _ L) as T.
  unfold scrape_product. cbv zeta. unfold bind at 1.
  rewrite scrape_with_bs4_run. fold u ua. rewrite L.
  cbn [has_price]. rewrite T. cbn [negb]. unfold bind, ret. rewrite T.
  reflexivity.
Qed.

Lemma scrape_product_lightweight_short_circuit_witness :
  scrape_product (BS := Flat.api) static_world true sample_product start_state
  = (Ok {| product_id := 7; name := "Monitor 24";
           url := "https://www.hardgamers.com.ar/p/teclado";
           store := "hardgamers";
           price := Some (S754_finite false 6528315930181632 (-35));
           currency := "ARS"; in_stock := true; error := None |},
     {| rng := 1;
        trace := [EvHttpGet "https://www.hardgamers.com.ar/p/teclado"
                            "Mozilla/5.0" 15] |}).
Proof.
  exact (scrape_product_lightweight_short_circuit
           (list Flat.element) Flat.element Flat.api
           static_world true sample_product start_state
           {| d_price := Some (S754_finite false 6528315930181632 (-35));
              d_currency := "ARS"; d_in_stock := true;
              d_name := "Monitor 24" |}
           eq_refl).
Defined.

(** The fields of the assembled result that do not depend on the
    page. *)
Lemma pipeline_result_fields
      {Soup Tag : Type} {BS : BeautifulSoupAPI Soup Tag}
      (w : World) (product : Product) (ua0 ua1 : string) :
  let r := pipeline_result product
             (strategy_chain w (p_url product) (resolved_store product)
                ua0 ua1) in
  product_id r = p_id product /\
  url r = p_url product /\
  store r = match p_store product with
            | Some s => if PyStr.truthy s then s
                        else detect_store (p_url product)
            | None => detect_store (p_url product)
            end /\
  In (currency r) ["ARS"; "USD"; "EUR"] /\
  (store r <> "amazon" -> currency r = "ARS") /\
  (p_name product <> "" -> name r <> "").
Proof.
  cbv zeta.
  destruct (strategy_chain _ _ _ _ _) as [d|] eqn:C; cbn.
  - apply strategy_chain_parsed in C. destruct C as [soup ->].
    destruct (registry_currency (resolved_store product) soup (p_url product))
      as [C1 C2].
    cbv zeta in C1, C2.
    do 3 (split; [reflexivity|]).
    split; [destruct C1 as [E|[E|E]]; rewrite E; cbn; auto|].
    split; [exact C2|].
    intros N. destruct (PyStr.truthy _) eqn:T; [|exact N].
    intros E. rewrite E in T. discriminate.
  - do 3 (split; [reflexivity|]).
    split; [cbn; auto|]. split; [reflexivity|]. auto.
Qed.

(** X6. Whatever happens, the result carries the input's id and URL,
    the store given with the product (the detected one when none is
    given), one of the currencies ARS, USD and EUR, which is ARS unless
    the store is amazon, and a non-empty name when the input's name is
    not empty: so it is of the result [scrape_product] always returns
    when no event loop is running, and of any it returns from a running
    event loop. *)
Theorem scrape_product_result_fields :
  forall (Soup Tag : Type) (BS : BeautifulSoupAPI Soup Tag)
         (w : World) (product : Product) (st : State),
  (exists r st',
    scrape_product w false product st = (Ok r, st') /\
    product_id r = p_id product /\
    url r = p_url product /\
    store r = match p_store product with
              | Some s => if PyStr.truthy s then s
                          else detect_store (p_url product)
              | None => detect_store (p_url product)
              end /\
    In (currency r) ["ARS"; "USD"; "EUR"] /\
    (store r <> "amazon" -> currency r = "ARS") /\
    (p_name product <> "" -> name r <> "")) /\
  (forall in_event_loop r st',
    scrape_product w in_event_loop product st = (Ok r, st') ->
    product_id r = p_id product /\
    url r = p_url product /\
    store r = match p_store product with
              | Some s => if PyStr.truthy s then s
                          else detect_store (p_url product)
              | None => detect_store (p_url product)
              end /\
    In (currency r) ["ARS"; "USD"; "EUR"] /\
    (store r <> "amazon" -> currency r = "ARS") /\
    (p_name product <> "" -> name r <> "")).
Proof.
  intros. split.
  - destruct (scrape_product_run w product st) as (log & n & Run).
    eexists. eexists. split; [exact Run|].
    apply pipeline_result_fields.
  - intros in_event_loop r st' Run.
    rewrite (scrape_product_returned w _ _ _ _ _ Run).
    apply pipeline_result_fields.
Qed.

(** X7. A call of [scrape_product] makes exactly one HTTP request,
    launches the browser at most once and draws at most two user
    agents: nothing is retried. With no event loop running the call
    returns; from a running event loop the counts are the same whether
    it returns or raises. *)
Theorem scrape_product_no_retry :
  forall (Soup Tag : Type) (BS : BeautifulSoupAPI Soup Tag)
         (w : World) (product : Product) (st : State),
  (exists r log n,
    scrape_product w false product st
    = (Ok r, {| rng := n; trace := trace st ++ log |}) /\
    List.length (List.filter is_http_get log) = 1%nat /\
    (occurrences EvPlaywrightStart log <= 1)%nat /\
    (occurrences EvLaunch log <= 1)%nat /\
    (n <= rng st + 2)%nat) /\
  (forall in_event_loop, exists out log n,
    scrape_product w in_event_loop product st
    = (out, {| rng := n; trace := trace st ++ log |}) /\
    List.length (List.filter is_http_get log) = 1%nat /\
    (occurrences EvPlaywrightStart log <= 1)%nat /\
    (occurrences EvLaunch log <= 1)%nat /\
    (n <= rng st + 2)%nat).
Proof.
  intros. split.
  - destruct (scrape_product_calls w product st)
      as (log & n & Run & Rn & H1 & H2 & H3 & _).
    eexists. exists log, n. split; [exact Run|].
    rewrite H1. cbn. repeat split; lia.
  - intros in_event_loop. apply scrape_product_call_counts.
Qed.

(** X8. The heavy strategy calls [browser.close()] exactly when the
    session was entered and every call up to [page.content()] returned:
    when an earlier call raises, the browser is not closed by the body
    and only the manager's exit runs. *)
Theorem playwright_browser_close_iff_content :
  forall (Soup Tag : Type) (BS : BeautifulSoupAPI Soup Tag)
         (w : World) (u s : string) (st : State),
  exists r log n,
    scrape_with_playwright_async w u s st
    = (Ok r, {| rng := n; trace := trace st ++ log |}) /\
    occurrences EvBrowserClose log
    = if pw_import w && pw_start w
         && content_reached w u (user_agents w (rng st))
      then 1%nat else 0%nat.
Proof.
  intros. destruct (scrape_with_playwright_async_calls w u s st)
    as (log & n & Run & _ & _ & _ & _ & H).
  eexists. exists log, n. split; [exact Run | exact H].
Qed.

(* ================================================================== *)
(** * The store badge *)
(* ================================================================== *)

Lemma lower_char_idempotent (c : ascii) :
  PyStr.lower_char (PyStr.lower_char c) = PyStr.lower_char c.
Proof. destruct c as [[] [] [] [] [] [] [] []]; reflexivity. Qed.

Lemma lower_idempotent (s : string) :
  PyStr.lower (PyStr.lower s) = PyStr.lower s.
Proof.
  induction s as [|c s IH]; cbn [PyStr.lower]; [reflexivity|].
  now rewrite lower_char_idempotent, IH.
Qed.

(** X9. Every store [detect_store] can return has a badge of its own in
    [store_emoji]: the fallback badge is never shown for a detected
    store; and [store_emoji] ignores the case of the store's letters. *)
Theorem store_emoji_covers_detected_stores :
  (forall u, In (detect_store u, store_emoji (detect_store u)) emojis /\
             store_emoji (detect_store u) <> "🏪") /\
  (forall s, store_emoji (PyStr.lower s) = store_emoji s).
Proof.
  split.
  - intros u. unfold detect_store.
    repeat match goal with
           | |- context [if ?b then _ else _] => destruct b
           end;
      (split; [vm_compute; tauto | vm_compute; discriminate]).
  - intros s. unfold store_emoji. now rewrite lower_idempotent.
Qed.

(* ================================================================== *)
(** * Properties of the database operations *)
(* ================================================================== *)

Import database.

Lemma next_rowid_above (ids : list Z) (i : Z) :
  In i ids -> i < next_rowid ids.
Proof.
  unfold next_rowid. induction ids as [|j ids IH]; cbn [In fold_right];
    [contradiction|].
  intros [-> | H]; [lia | specialize (IH H); lia].
Qed.

Lemma next_rowid_fresh (ids : list Z) : ~ In (next_rowid ids) ids.
Proof. intros H. apply next_rowid_above in H. lia. Qed.

Lemma NoDup_snoc {A : Type} (l : list A) (x : A) :
  NoDup l -> ~ In x l -> NoDup (l ++ [x]).
Proof.
  induction l as [|a l IH]; cbn [app]; intros N H.
  - constructor; [intros [] | constructor].
  - inversion N as [|? ? Ha Nl]; subst. constructor.
    + rewrite in_app_iff. cbn [In]. intros [I | [E | []]];
        [contradiction | subst; apply H; now left].
    + apply IH; [exact Nl | intros I; apply H; now right].
Qed.

Lemma find_snoc {A : Type} (f : A -> bool) (l : list A) (x : A) :
  List.find f (l ++ [x])
  = match List.find f l with
    | Some y => Some y
    | None => if f x then Some x else None
    end.
Proof.
  induction l as [|a l IH]; cbn [app List.find]; [reflexivity|].
  destruct (f a); [reflexivity | exact IH].
Qed.

Lemma existsb_find_some {A : Type} (f : A -> bool) (l : list A) :
  List.existsb f l = true -> exists x, List.find f l = Some x.
Proof.
  induction l as [|a l IH]; cbn [List.existsb List.find]; [discriminate|].
  destruct (f a); [eauto | exact IH].
Qed.

Lemma existsb_false_find {A : Type} (f : A -> bool) (l : list A) :
  List.existsb f l = false -> List.find f l = None.
Proof.
  induction l as [|a l IH]; cbn [List.existsb List.find]; [reflexivity|].
  destruct (f a); [discriminate | exact IH].
Qed.

Lemma find_existsb {A : Type} (f : A -> bool) (l : list A) (x : A) :
  List.find f l = Some x -> List.existsb f l = true.
Proof.
  induction l as [|a l IH]; cbn [List.existsb List.find]; [discriminate|].
  destruct (f a); [reflexivity | exact IH].
Qed.

Lemma url_absent (u : string) (l : list product_row) :
  List.existsb (fun r => String.eqb (r_url r) u) l = false ->
  ~ In u (List.map r_url l).
Proof.
  induction l as [|a l IH]; cbn [List.existsb List.map In]; [tauto|].
  intros H. apply orb_false_elim in H. destruct H as [E H].
  apply String.eqb_neq in E. intros [F | F]; [congruence | now apply IH].
Qed.

Lemma deactivate_id (i : Z) (r : product_row) : r_id (deactivate i r) = r_id r.
Proof. unfold deactivate. destruct (r_id r =? i); reflexivity. Qed.

Lemma deactivate_url (i : Z) (r : product_row) :
  r_url (deactivate i r) = r_url r.
Proof. unfold deactivate. destruct (r_id r =? i); reflexivity. Qed.

Lemma remove_product_rows (i : Z) (d : Db) :
  products (remove_product i d) = List.map (deactivate i) (products d).
Proof. reflexivity. Qed.

Lemma find_url_deactivated (i : Z) (u : string) (l : list product_row) :
  List.find (fun r => String.eqb (r_url r) u) (List.map (deactivate i) l)
  = option_map (deactivate i)
      (List.find (fun r => String.eqb (r_url r) u) l).
Proof.
  induction l as [|a l IH]; cbn [List.map List.find]; [reflexivity|].
  rewrite deactivate_url. destruct (String.eqb (r_url a) u);
    [reflexivity | exact IH].
Qed.

Lemma NoDup_map_injective {A B : Type} (f : A -> B) (l : list A) (a b : A) :
  NoDup (List.map f l) -> In a l -> In b l -> f a = f b -> a = b.
Proof.
  induction l as [|x l IH]; cbn [List.map In]; [contradiction|].
  intros N Ha Hb E. inversion N as [|? ? Hx Nl]; subst.
  destruct Ha as [-> | Ha], Hb as [-> | Hb]; auto.
  - exfalso. apply Hx. rewrite E. now apply in_map.
  - exfalso. apply Hx. rewrite <- E. now apply in_map.
Qed.

(** What [add_product] does: it returns the id of the row that now
    holds the URL, and keeps the schema's constraints. *)
Lemma add_product_spec (n u s : string) (t : Z) (d : Db) :
  exists i d1 row,
    add_product n u s t d = (Ok i, d1) /\
    select_by_url u d1 = Some row /\ r_id row = i /\
    price_history d1 = price_history d /\
    (well_formed d -> well_formed d1).
Proof.
  unfold add_product, insert_product, select_by_url.
  destruct (List.existsb _ (products d)) eqn:E.
  - destruct (existsb_find_some _ _ E) as [row F]. rewrite F.
    exists (r_id row), d, row. auto.
  - eexists. eexists. eexists. split; [reflexivity|].
    cbn [products price_history]. rewrite find_snoc.
    rewrite (existsb_false_find _ _ E). cbn [r_url].
    rewrite String.eqb_refl. do 3 (split; [reflexivity|]).
    intros (W1 & W2 & W3). unfold well_formed. cbn [products price_history].
    rewrite !List.map_app. cbn [List.map r_id r_url].
    split; [|split; [|exact W3]].
    + apply NoDup_snoc; [exact W1 | apply next_rowid_fresh].
    + apply NoDup_snoc; [exact W2 | now apply url_absent].
Qed.

(** X10. Adding a URL a second time returns the id of the first call
    and changes nothing: the name and store given the second time are
    ignored. *)
Theorem add_product_same_url_twice
        (n1 s1 n2 s2 u : string) (t1 t2 : Z) (d : Db) :
  exists i d1,
    add_product n1 u s1 t1 d = (Ok i, d1) /\
    add_product n2 u s2 t2 d1 = (Ok i, d1).
Proof.
  destruct (add_product_spec n1 u s1 t1 d) as (i & d1 & row & A & F & I & _).
  exists i, d1. split; [exact A|].
  unfold add_product, insert_product. unfold select_by_url in *.
  rewrite (find_existsb _ _ _ F), F, I. reflexivity.
Qed.

(** X11. After [remove_product], adding the same URL again returns the
    old id and does not bring the product back: it stays out of
    [get_active_products]. *)
Theorem add_product_after_remove_stays_inactive
        (n s n' s' u : string) (t t' : Z) (d : Db) :
  well_formed d ->
  exists i d1,
    add_product n u s t d = (Ok i, d1) /\
    let d2 := remove_product i d1 in
    add_product n' u s' t' d2 = (Ok i, d2) /\
    Forall (fun r => r_url r <> u) (get_active_products d2).
Proof.
  intros W.
  destruct (add_product_spec n u s t d) as (i & d1 & row & A & F & I & _ & W1).
  specialize (W1 W). destruct W1 as (_ & Wu & _).
  exists i, d1. split; [exact A|]. cbv zeta. unfold select_by_url in F.
  split.
  - unfold add_product, insert_product, select_by_url.
    rewrite remove_product_rows, find_url_deactivated, F.
    cbn [option_map].
    rewrite (find_existsb _ _ (deactivate i row)).
    + rewrite deactivate_id, I. reflexivity.
    + rewrite find_url_deactivated, F. reflexivity.
  - unfold get_active_products. rewrite remove_product_rows.
    apply Forall_forall. intros r2 H2 E.
    apply filter_In in H2. destruct H2 as [H2 Act].
    apply in_map_iff in H2. destruct H2 as (r1 & <- & H1).
    rewrite deactivate_url in E.
    apply List.find_some in F. destruct F as [Hrow Eu].
    apply String.eqb_eq in Eu.
    assert (r1 = row) as ->
        by (apply (NoDup_map_injective r_url (products d1)); congruence).
    unfold deactivate in Act. rewrite I, Z.eqb_refl in Act. discriminate.
Qed.

Lemma add_product_after_remove_stays_inactive_witness :
  exists i d1,
    add_product "Mouse" "https://www.fravega.com/p/mouse" "fravega" 100 empty
    = (Ok i, d1) /\
    let d2 := remove_product i d1 in
    add_product "Mouse G203" "https://www.fravega.com/p/mouse" "fravega" 900 d2
    = (Ok i, d2) /\
    Forall (fun r => r_url r <> "https://www.fravega.com/p/mouse")
           (get_active_products d2).
Proof.
  apply (add_product_after_remove_stays_inactive
           "Mouse" "fravega" "Mouse G203" "fravega"
           "https://www.fravega.com/p/mouse" 100 900 empty).
  repeat split; constructor.
Defined.

(** X12. The operations keep what the schema requires: product ids,
    product URLs and history ids stay free of duplicates. *)
Theorem database_stays_well_formed
        (n u s c : string) (t pid : Z) (x : float) (b : bool) (d : Db) :
  well_formed d ->
  well_formed (snd (add_product n u s t d)) /\
  well_formed (save_price pid x c b t d) /\
  well_formed (remove_product pid d).
Proof.
  intros W. split; [|split].
  - destruct (add_product_spec n u s t d) as (i & d1 & row & A & _ & _ & _ & W1).
    rewrite A. exact (W1 W).
  - destruct W as (W1 & W2 & W3). unfold well_formed, save_price.
    cbn [products price_history]. rewrite List.map_app. cbn [List.map h_id].
    repeat split; [exact W1 | exact W2 |].
    apply NoDup_snoc; [exact W3 | apply next_rowid_fresh].
  - destruct W as (W1 & W2 & W3). unfold well_formed.
    rewrite remove_product_rows, !List.map_map.
    rewrite (List.map_ext _ r_id (deactivate_id pid)).
    rewrite (List.map_ext _ r_url (deactivate_url pid)).
    repeat split; assumption.
Qed.

(** On a database with a product and two prices on record: a second
    product, a third price, and the removal of the stored product. *)
Lemma database_stays_well_formed_witness :
  well_formed (snd (add_product "Mouse" "https://www.fravega.com/p/mouse"
                                "fravega" 9000 sample_db)) /\
  well_formed (save_price 1 f_12_345 "ARS" true 9000 sample_db) /\
  well_formed (remove_product 1 sample_db).
Proof.
  apply (database_stays_well_formed
           "Mouse" "https://www.fravega.com/p/mouse" "fravega" "ARS"
           9000 1 f_12_345 true sample_db).
  unfold well_formed, sample_db. cbn.
  repeat split; repeat constructor; cbn; intuition discriminate.
Defined.

Lemma insert_by_length {A : Type} (le : A -> A -> bool) (x : A) (l : list A) :
  List.length (insert_by le x l) = S (List.length l).
Proof.
  induction l as [|y l IH]; cbn [insert_by]; [reflexivity|].
  destruct (le x y); cbn [List.length]; [reflexivity | now rewrite IH].
Qed.

Lemma order_by_length {A : Type} (le : A -> A -> bool) (l : list A) :
  List.length (order_by le l) = List.length l.
Proof.
  unfold order_by. induction l as [|y l IH]; cbn [fold_right List.length];
    [reflexivity|].
  now rewrite insert_by_length, IH.
Qed.

Lemma insert_by_before_last {A : Type} (le : A -> A -> bool)
      (y x : A) (l : list A) :
  le y x = true -> insert_by le y (l ++ [x]) = (insert_by le y l ++ [x])%list.
Proof.
  intros H. induction l as [|z l IH]; cbn [app insert_by].
  - now rewrite H.
  - destruct (le y z); [reflexivity|]. cbn [app]. now rewrite IH.
Qed.

(** A row that sorts after all the others is last. *)
Lemma order_by_snoc_last {A : Type} (le : A -> A -> bool)
      (x : A) (l : list A) :
  Forall (fun y => le y x = true) l ->
  order_by le (l ++ [x]) = (order_by le l ++ [x])%list.
Proof.
  unfold order_by. induction 1 as [|y l Hy Hl IH]; [reflexivity|].
  cbn [app fold_right]. rewrite IH. now apply insert_by_before_last.
Qed.


Lemma rows_of_save_price (pid pid' : Z) (x : float) (c : string) (b : bool)
      (t : Z) (d : Db) :
  rows_of pid' (save_price pid x c b t d)
  = (rows_of pid' d ++
     if pid =? pid'
     then [ {| h_id := next_rowid (List.map h_id (price_history d));
               h_product_id := pid;
               h_price := match x with S754_nan => None | _ => Some x end;
               h_currency := c; h_in_stock := if b then 1 else 0;
               h_checked_at := t |} ]
     else [])%list.
Proof.
  unfold rows_of, save_price. cbn [price_history].
  rewrite List.filter_app. cbn [List.filter h_product_id].
  destruct (pid =? pid'); reflexivity.
Qed.

(** X13. [get_price_history] keeps the oldest records: once a product
    has [limit] records, a price saved later is not part of what it
    returns. *)
Theorem get_price_history_keeps_oldest
        (pid limit now : Z) (x : float) (c : string) (b : bool) (d : Db) :
  0 <= limit ->
  (Z.to_nat limit <= List.length (rows_of pid d))%nat ->
  all_before pid now d ->
  get_price_history pid limit (save_price pid x c b now d)
  = get_price_history pid limit d.
Proof.
  intros L N B. unfold get_price_history.
  rewrite rows_of_save_price, Z.eqb_refl.
  rewrite order_by_snoc_last.
  - unfold limit_rows. replace (limit <? 0) with false
      by (symmetry; apply Z.ltb_ge; exact L).
    rewrite List.firstn_app, order_by_length.
    replace (Z.to_nat limit - List.length (rows_of pid d))%nat with 0%nat
      by lia.
    cbn [List.firstn]. now rewrite app_nil_r.
  - unfold all_before in B. eapply Forall_impl; [|exact B].
    intros h H. cbv beta in *. cbn [h_checked_at]. apply Z.leb_le. lia.
Qed.

Lemma get_price_history_keeps_oldest_witness :
  get_price_history 1 2 (save_price 1 f_12_345 "ARS" true 8200 sample_db)
  = get_price_history 1 2 sample_db.
Proof.
  apply (get_price_history_keeps_oldest 1 2 8200 f_12_345 "ARS" true sample_db).
  - lia.
  - apply le_n.
  - repeat constructor.
Defined.



(* ================================================================== *)
(** * Properties of the command-line tool *)
(* ================================================================== *)

Section CommandFacts.

Context {Soup Tag : Type} {BS : BeautifulSoupAPI Soup Tag}.

(** Called with no event loop running, [scrape_product] returns, any
    price it reports is greater than zero, and its name is not empty
    when the input's is not. *)
Lemma scrape_product_returns (w : World) (product : Product) (st : State) :
  exists r st',
    scrape_product w false product st = (Ok r, st') /\
    (forall x, price r = Some x -> PyFloat.gtb x PyFloat.zero = true) /\
    (PyStr.truthy (p_name product) = true -> PyStr.truthy (name r) = true) /\
    (price r = None -> name r = p_name product).
Proof.
  destruct (scrape_product_run w product st) as (log & n & Run).
  eexists. eexists. split; [exact Run|].
  destruct (strategy_chain _ _ _ _ _) as [d|] eqn:C; cbn.
  - destruct (strategy_chain_positive _ _ _ _ _ _ C) as (x & Px & Gx).
    rewrite Px. split; [intros y [= <-]; exact Gx|].
    split; [|discriminate].
    intros T. destruct (PyStr.truthy (d_name d)) eqn:E; assumption.
  - split; [discriminate|]. split; auto.
Qed.

Lemma positive_truthy (x : float) :
  PyFloat.gtb x PyFloat.zero = true ->
  PyFloat.truthy x = true /\
  match x with S754_nan => None | _ => Some x end = Some x.
Proof. destruct x as [s|s| |s m e]; try destruct s; try discriminate; auto. Qed.

(** What storing a result does: nothing without a price, one more
    record with that price otherwise. *)
Lemma save_result_history (pid now : Z) (r : ScrapeResult) (d : Db) :
  (forall x, price r = Some x -> PyFloat.gtb x PyFloat.zero = true) ->
  manage.save_result pid r now d
  = {| products := products d;
       price_history :=
         match price r with
         | Some x =>
             price_history d ++
             [ {| h_id := next_rowid (List.map h_id (price_history d));
                  h_product_id := pid; h_price := Some x;
                  h_currency := currency r;
                  h_in_stock := if in_stock r then 1 else 0;
                  h_checked_at := now |} ]
         | None => price_history d
         end |}.
Proof.
  intros P. unfold manage.save_result.
  destruct (price r) as [x|]; [|destruct d; reflexivity].
  destruct (positive_truthy x (P x eq_refl)) as [T N].
  rewrite T. unfold save_price. now rewrite N.
Qed.

Lemma forall_url_absent (u : string) (l : list product_row) :
  Forall (fun r => r_url r <> u) l ->
  List.existsb (fun r => String.eqb (r_url r) u) l = false.
Proof.
  induction 1 as [|r l Hr Hl IH]; cbn [List.existsb]; [reflexivity|].
  rewrite IH, orb_false_r. now apply String.eqb_neq.
Qed.

Lemma check_products_history (env : nat -> World) (clock : nat -> Z)
      (ps : list product_row) :
  forall (k : nat) (st : State) (d : Db),
  exists st' added,
    manage.check_products env clock k ps st d
    = (Ok tt, st', {| products := products d;
                      price_history := price_history d ++ added |}) /\
    (List.length added <= List.length ps)%nat /\
    Forall (fun h => (exists p, In p ps /\ h_product_id h = r_id p) /\
                     exists x, h_price h = Some x /\
                               PyFloat.gtb x PyFloat.zero = true) added.
Proof.
  induction ps as [|p ps IH]; intros k st d; cbn [manage.check_products].
  - exists st, []. rewrite app_nil_r. destruct d. cbn. auto.
  - destruct (scrape_product_returns (env k) (manage.product_of_row p) st)
      as (r & st1 & Run & Pos & _).
    rewrite Run, (save_result_history _ _ _ _ Pos).
    match goal with
    | |- context [manage.check_products _ _ _ _ _ ?d1] =>
        destruct (IH (S k) st1 d1) as (st' & added & Rest & Len & All)
    end.
    rewrite Rest. cbn [products price_history].
    assert (Forall (fun h => (exists q, In q (p :: ps) /\
                                        h_product_id h = r_id q) /\
                             exists x, h_price h = Some x /\
                                       PyFloat.gtb x PyFloat.zero = true)
                   added) as All'.
    { eapply Forall_impl; [|exact All].
      intros h ((q & Hq & Eq) & Hx). split; [|exact Hx].
      exists q. split; [now right | exact Eq]. }
    destruct (price r) as [x|] eqn:Px.
    + eexists. eexists. split; [rewrite <- app_assoc; reflexivity|].
      split; [cbn; lia|]. constructor; [|exact All'].
      cbn. split; [exists p; auto | exists x; auto].
    + exists st', added. split; [reflexivity|]. split; [cbn; lia | exact All'].
Qed.

End CommandFacts.

(** X15. [cmd_add] on a URL that is not stored yet always stores the
    product, also when no price can be scraped: under the name given on
    the command line, else the scraped name, else "Nuevo producto"; with
    the detected store; and with one price record exactly when the
    scrape reports a price. *)
Theorem cmd_add_new_url :
  forall (Soup Tag : Type) (BS : BeautifulSoupAPI Soup Tag)
         (w : World) (now1 now2 : Z) (u nombre : string)
         (st : State) (d : Db),
    Forall (fun r => r_url r <> u) (products d) ->
    exists r st',
      scrape_product w false
        {| p_id := 0;
           p_name := if PyStr.truthy nombre then nombre else "Nuevo producto";
           p_url := u; p_store := Some (detect_store u) |} st = (Ok r, st') /\
      let pid := next_rowid (List.map r_id (products d)) in
      manage.cmd_add w now1 now2 u nombre st d
      = (Ok tt, st',
         {| products :=
              products d ++
              [ {| r_id := pid;
                   r_name := if PyStr.truthy nombre then nombre else name r;
                   r_url := u; r_store := detect_store u; r_active := 1;
                   r_created_at := now1 |} ];
            price_history :=
              match price r with
              | Some x =>
                  price_history d ++
                  [ {| h_id := next_rowid (List.map h_id (price_history d));
                       h_product_id := pid; h_price := Some x;
                       h_currency := currency r;
                       h_in_stock := if in_stock r then 1 else 0;
                       h_checked_at := now2 |} ]
              | None => price_history d
              end |}) /\
      (price r = None -> nombre = "" -> name r = "Nuevo producto").
Proof.
  intros Soup Tag BS w now1 now2 u nombre st d New.
  match goal with
  | |- context [scrape_product w false ?t st] =>
      destruct (scrape_product_returns w t st)
        as (r & st' & Run & Pos & Named & Failed)
  end.
  exists r, st'. split; [exact Run|]. cbv zeta. split.
  - unfold manage.cmd_add. cbv zeta. rewrite Run.
    assert (PyStr.truthy (name r) = true) as T.
    { apply Named. cbn [p_name]. destruct (PyStr.truthy nombre) eqn:E;
        [exact E | reflexivity]. }
    rewrite T. unfold add_product, insert_product.
    rewrite (forall_url_absent u _ New).
    rewrite (save_result_history _ _ _ _ Pos). reflexivity.
  - intros N E. rewrite (Failed N). subst nombre. reflexivity.
Qed.

Lemma cmd_add_new_url_witness :
  exists r st',
    scrape_product (BS := Flat.api) offline_world false
      {| p_id := 0; p_name := "Nuevo producto";
         p_url := "https://www.fravega.com/p/mouse";
         p_store := Some "fravega" |} start_state = (Ok r, st') /\
    let pid := 2 in
    manage.cmd_add (BS := Flat.api) offline_world 9000 9001
                   "https://www.fravega.com/p/mouse" "" start_state sample_db
    = (Ok tt, st',
       {| products :=
            products sample_db ++
            [ {| r_id := pid; r_name := name r;
                 r_url := "https://www.fravega.com/p/mouse";
                 r_store := "fravega"; r_active := 1;
                 r_created_at := 9000 |} ];
          price_history :=
            match price r with
            | Some x =>
                price_history sample_db ++
                [ {| h_id := 3; h_product_id := pid; h_price := Some x;
                     h_currency := currency r;
                     h_in_stock := if in_stock r then 1 else 0;
                     h_checked_at := 9001 |} ]
            | None => price_history sample_db
            end |}) /\
    (price r = None -> "" = "" -> name r = "Nuevo producto").
Proof.
  apply (cmd_add_new_url (list Flat.element) Flat.element Flat.api
           offline_world 9000 9001 "https://www.fravega.com/p/mouse" ""
           start_state sample_db).
  repeat constructor. discriminate.
Defined.

(** X16. [cmd_add] on a URL that is already stored changes no product:
    the stored name is kept and a removed product is not brought back.
    The scraped price, when there is one, is recorded for the stored
    product. *)
Theorem cmd_add_known_url :
  forall (Soup Tag : Type) (BS : BeautifulSoupAPI Soup Tag)
         (w : World) (now1 now2 : Z) (u nombre : string)
         (st : State) (d : Db) (row : product_row),
    select_by_url u d = Some row ->
    exists r st',
      scrape_product w false
        {| p_id := 0;
           p_name := if PyStr.truthy nombre then nombre else "Nuevo producto";
           p_url := u; p_store := Some (detect_store u) |} st = (Ok r, st') /\
      manage.cmd_add w now1 now2 u nombre st d
      = (Ok tt, st',
         {| products := products d;
            price_history :=
              match price r with
              | Some x =>
                  price_history d ++
                  [ {| h_id := next_rowid (List.map h_id (price_history d));
                       h_product_id := r_id row; h_price := Some x;
                       h_currency := currency r;
                       h_in_stock := if in_stock r then 1 else 0;
                       h_checked_at := now2 |} ]
              | None => price_history d
              end |}).
Proof.
  intros Soup Tag BS w now1 now2 u nombre st d row Known.
  match goal with
  | |- context [scrape_product w false ?t st] =>
      destruct (scrape_product_returns w t st)
        as (r & st' & Run & Pos & _)
  end.
  exists r, st'. split; [exact Run|].
  unfold manage.cmd_add. cbv zeta. rewrite Run.
  unfold add_product, insert_product. unfold select_by_url in *.
  rewrite (find_existsb _ _ _ Known), Known.
  now rewrite (save_result_history _ _ _ _ Pos).
Qed.

Lemma cmd_add_known_url_witness :
  exists r st',
    scrape_product (BS := Flat.api) static_world false
      {| p_id := 0; p_name := "Pantalla";
         p_url := "https://www.hardgamers.com.ar/p/monitor";
         p_store := Some "hardgamers" |} start_state = (Ok r, st') /\
    manage.cmd_add (BS := Flat.api) static_world 9000 9001
                   "https://www.hardgamers.com.ar/p/monitor" "Pantalla"
                   start_state (remove_product 1 sample_db)
    = (Ok tt, st',
       {| products := products (remove_product 1 sample_db);
          price_history :=
            match price r with
            | Some x =>
                price_history (remove_product 1 sample_db) ++
                [ {| h_id := 3; h_product_id := 1; h_price := Some x;
                     h_currency := currency r;
                     h_in_stock := if in_stock r then 1 else 0;
                     h_checked_at := 9001 |} ]
            | None => price_history (remove_product 1 sample_db)
            end |}).
Proof.
  exact (cmd_add_known_url (list Flat.element) Flat.element Flat.api
           static_world 9000 9001 "https://www.hardgamers.com.ar/p/monitor"
           "Pantalla" start_state (remove_product 1 sample_db)
           {| r_id := 1; r_name := "Monitor 24";
              r_url := "https://www.hardgamers.com.ar/p/monitor";
              r_store := "hardgamers"; r_active := 0;
              r_created_at := 1000 |}
           eq_refl).
Defined.


(** X18. If every price on record is greater than zero, it still is
    after [cmd_add], [cmd_check] and [cmd_remove]: the tool never
    records a missing or zero price. *)
Theorem commands_keep_prices_positive :
  forall (Soup Tag : Type) (BS : BeautifulSoupAPI Soup Tag)
         (w : World) (env : nat -> World) (clock : nat -> Z)
         (now1 now2 pid : Z) (u nombre : string) (st : State) (d : Db),
    prices_positive (price_history d) ->
    prices_positive (price_history (snd (manage.cmd_add w now1 now2 u nombre st d))) /\
    prices_positive (price_history (snd (manage.cmd_check env clock st d))) /\
    prices_positive (price_history (manage.cmd_remove pid d)).
Proof.
  intros Soup Tag BS w env clock now1 now2 pid u nombre st d P.
  split; [|split; [|exact P]].
  - unfold manage.cmd_add. cbv zeta.
    match goal with
    | |- context [scrape_product w false ?t st] =>
        destruct (scrape_product_returns w t st)
          as (r & st' & Run & Pos & _)
    end.
    rewrite Run.
    match goal with
    | |- context [add_product ?n u ?s now1 d] =>
        destruct (add_product_spec n u s now1 d)
          as (i & d1 & row & A & _ & _ & H1 & _)
    end.
    rewrite A. cbn [snd]. rewrite (save_result_history _ _ _ _ Pos).
    cbn [price_history]. rewrite H1.
    destruct (price r) as [x|] eqn:Px; [|exact P].
    apply Forall_app. split; [exact P|]. constructor; [|constructor].
    exists x. split; [reflexivity | exact (Pos x eq_refl)].
  - unfold manage.cmd_check. cbv zeta.
    destruct (check_products_history env clock (get_active_products d) 0 st d)
      as (st' & added & Run & _ & All).
    destruct (get_active_products d) as [|p ps]; [exact P|].
    rewrite Run. cbn [snd price_history].
    apply Forall_app. split; [exact P|].
    eapply Forall_impl; [|exact All]. intros h [_ Hx]. exact Hx.
Qed.

Lemma commands_keep_prices_positive_witness :
  prices_positive
    (price_history
       (snd (manage.cmd_add (BS := Flat.api) static_world 9000 9001
               "https://www.fravega.com/p/mouse" "" start_state sample_db))) /\
  prices_positive
    (price_history
       (snd (manage.cmd_check (BS := Flat.api) (fun _ => static_world)
               (fun k => 9000 + Z.of_nat k) start_state sample_db))) /\
  prices_positive (price_history (manage.cmd_remove 1 sample_db)).
Proof.
  apply (commands_keep_prices_positive
           (list Flat.element) Flat.element Flat.api static_world
           (fun _ => static_world) (fun k => 9000 + Z.of_nat k)
           9000 9001 1 "https://www.fravega.com/p/mouse" ""
           start_state sample_db).
  repeat constructor; eexists; split; reflexivity.
Defined.
